(** * upload_today_to_youtube.py: a shallow embedding and its properties

    The script reads its configuration from the process environment,
    derives one or several file names from today's UTC date, downloads
    each of them from an object store and uploads it to YouTube.

    Python values are embedded as follows:
    - [str] is [string] (a byte string holding the UTF-8 text; every
      character the script compares against is ASCII);
    - [int] is [Z], printed in decimal by stdpp's [pretty];
    - [bytes] is [list Byte.byte];
    - [os.environ], the local file system and the response dictionary
      are [gmap]s keyed by strings;
    - console output, HTTP requests and API calls are recorded, in
      order, in the [trace] of the world;
    - statements that may raise run in a state-and-exception monad [M]. *)

From Stdlib Require Import Ascii String ZArith Lia.
From stdpp Require Import base strings gmap list pretty numbers.

Open Scope Z_scope.

Abbreviation bytes := (list Byte.byte).

(** ** Text helpers (Python [str] methods) *)

Module Str.

Definition nl : string := String "010"%char "".

(** [c in chars] for a character [c] of a string. *)
Fixpoint in_chars (chars : string) (c : ascii) : bool :=
  match chars with
  | EmptyString => false
  | String a rest => if decide (a = c) then true else in_chars rest c
  end.

(** [s.lstrip(...)]: drop the longest prefix made of characters
    satisfying [p]. *)
Fixpoint lstrip (p : ascii → bool) (s : string) : string :=
  match s with
  | EmptyString => EmptyString
  | String a rest => if p a then lstrip p rest else s
  end.

(** [s.rstrip(...)]: drop the longest suffix made of characters
    satisfying [p]. *)
Fixpoint rstrip (p : ascii → bool) (s : string) : string :=
  match s with
  | EmptyString => EmptyString
  | String a rest =>
      match rstrip p rest with
      | EmptyString => if p a then EmptyString else String a EmptyString
      | kept => String a kept
      end
  end.

(** [s.strip(...)]. *)
Definition strip (p : ascii → bool) (s : string) : string :=
  rstrip p (lstrip p s).

(** Every character of [s] satisfies [p]. *)
Fixpoint all_chars (p : ascii → bool) (s : string) : bool :=
  match s with
  | EmptyString => true
  | String a rest => p a && all_chars p rest
  end.

Definition head (s : string) : option ascii :=
  match s with
  | EmptyString => None
  | String a _ => Some a
  end.

Fixpoint last (s : string) : option ascii :=
  match s with
  | EmptyString => None
  | String a EmptyString => Some a
  | String _ rest => last rest
  end.

(** [c.lower()] on the ASCII range: "A".."Z" move to "a".."z". Bytes
    outside that range are left as they are: Python folds the letters
    beyond ASCII as well, but never into one of the characters "1", "t",
    "r", "u", "e", "y", "s" that [env_bool] tests for, so its membership
    test reads the same on the folded bytes. *)
Definition lower_char (c : ascii) : ascii :=
  let n := nat_of_ascii c in
  if ((65 <=? n)%nat && (n <=? 90)%nat)%bool then ascii_of_nat (n + 32)
  else c.

(** [s.lower()]. *)
Fixpoint lower (s : string) : string :=
  match s with
  | EmptyString => EmptyString
  | String a rest => String (lower_char a) (lower rest)
  end.



(** [x in (t1, t2, ...)] for strings. *)
Fixpoint mem (x : string) (l : list string) : bool :=
  match l with
  | [] => false
  | t :: rest => if decide (x = t) then true else mem x rest
  end.

(** Decimal digits with single underscores between them, as accepted
    by [int(...)]; [after_digit] tells whether the previous character
    was a digit. *)
Fixpoint digits (acc : Z) (after_digit : bool) (s : string) : option Z :=
  match s with
  | EmptyString => if after_digit then Some acc else None
  | String c rest =>
      match Ascii.is_nat c with
      | Some d => digits (10 * acc + Z.of_nat d) true rest
      | None =>
          if decide (c = "_"%char) then
            if after_digit then digits acc false rest else None
          else None
      end
  end.

(** The ASCII characters [int(...)] skips around a number: tab to
    carriage return, the four separators 28..31 and the space. *)
Definition is_space (c : ascii) : bool :=
  let n := nat_of_ascii c in
  ((9 <=? n)%nat && (n <=? 13)%nat) || ((28 <=? n)%nat && (n <=? 32)%nat).

(** [int(s)] for ASCII text: surrounding white space is ignored, one
    sign is allowed; [None] stands for [ValueError]. Digits and spaces
    beyond ASCII and the interpreter's cap on the number of digits are
    left out. *)
Definition to_int (s : string) : option Z :=
  match strip is_space s with
  | String "-" rest => Z.opp <$> digits 0 false rest
  | String "+" rest => digits 0 false rest
  | t => digits 0 false t
  end.

End Str.

(** ** Configuration readers *)

(** [os.getenv(name)] is a lookup in the environment map. *)
Definition getenv (environ : gmap string string) (name : string)
  : option string := environ !! name.

Definition env_bool (environ : gmap string string) (name : string)
    (default : bool) : bool :=
  match getenv environ name with
  | None => default
  | Some val => Str.mem (Str.lower val) ["1"; "true"; "yes"; "y"]
  end.

Definition env_int (environ : gmap string string) (name : string)
    (default : Z) : Z :=
  let text :=
    match getenv environ name with
    | Some val => val
    | None => pretty default
    end in
  match Str.to_int text with
  | Some n => n
  | None => default
  end.

(** ** Exceptions, the world and the monad of statements *)

(** The exception classes the script meets; all of them derive from
    Python's [Exception]. *)
Inductive exn_class :=
| KeyError
| TypeError
| FileNotFoundError
| HTTPError
| RequestException
| ApiError.

(** An exception instance; [exn_str] is what [str(e)] prints. *)
Record exn := Exn { exn_kind : exn_class; exn_str : string }.

(** Values stored in the metadata document handed to the API. *)
#[warnings="-register-all"]
Inductive pyval :=
| PStr (s : string)
| PBool (b : bool)
| PDict (d : gmap string pyval).

(** What the process does to the outside, in order. *)
Inductive event :=
| Print (line : string)
| HttpGet (url : string)
| VideosInsert (part : string) (body : gmap string pyval) (media : bytes).

Record world := World {
  fs : gmap string bytes;
  trace : list event
}.

Inductive outcome (A : Type) :=
| Ret (a : A)
| Raise (e : exn).
Arguments Ret {A} a.
Arguments Raise {A} e.

Definition M (A : Type) : Type := world → outcome A * world.

#[global] Instance M_ret : MRet M := λ A a w, (Ret a, w).

#[global] Instance M_bind : MBind M := λ A B k m w,
  match m w with
  | (Ret a, w') => k a w'
  | (Raise e, w') => (Raise e, w')
  end.

Definition raise {A} (e : exn) : M A := λ w, (Raise e, w).

(** [try: body  except Exception as e: handler(e)]. The effects of
    [body] up to the [raise] are kept. *)
Definition try_except {A} (body : M A) (handler : exn → M A) : M A := λ w,
  match body w with
  | (Ret a, w') => (Ret a, w')
  | (Raise e, w') => handler e w'
  end.

Definition emit (ev : event) : M unit := λ w,
  (Ret (), World (fs w) (trace w ++ [ev])).

Definition print (line : string) : M unit := emit (Print line).

(** ** External collaborators *)

(** The part of a [requests] response the script looks at. *)
Record response := Response {
  status_code : Z;
  reason : string;
  resp_url : string;
  iter_content : list bytes
}.

(** The OAuth material the client is built from. *)
Record credentials := Credentials {
  refresh_token : string;
  client_id : string;
  client_secret : string
}.

(** Everything the run obtains from outside the process: the clock
    ([datetime.utcnow().strftime("%Y-%m-%d")]), the object store, the
    name [tempfile] picks for a scratch file given the files that exist
    (it creates the file exclusively, so the name is one that does not
    exist yet; the statements that need this assume it), and the video
    platform. *)
Record externals := Externals {
  utc_today : string;
  requests_get : string → outcome response;
  temp_name : gmap string bytes → string;
  videos_insert :
    credentials → string → gmap string pyval → bytes →
    outcome (gmap string string)
}.

(** [os.environ[key]]. *)
Definition environ_getitem (environ : gmap string string) (key : string)
  : M string :=
  match environ !! key with
  | Some val => mret val
  | None => raise (Exn KeyError ("'" +:+ key +:+ "'"))
  end.

Definition build_youtube_client (environ : gmap string string)
  : M credentials :=
  token ← environ_getitem environ "YT_REFRESH_TOKEN";
  cid ← environ_getitem environ "YT_CLIENT_ID";
  secret ← environ_getitem environ "YT_CLIENT_SECRET";
  mret (Credentials token cid secret).

(** ** Fetcher *)

(** [resp.raise_for_status()] of [requests]: [HTTPError] for the client
    and server error classes, nothing otherwise. *)
Definition raise_for_status (resp : response) : M unit :=
  let code := status_code resp in
  if decide (400 ≤ code < 500) then
    raise (Exn HTTPError (pretty code +:+ " Client Error: " +:+ reason resp
                          +:+ " for url: " +:+ resp_url resp))
  else if decide (500 ≤ code < 600) then
    raise (Exn HTTPError (pretty code +:+ " Server Error: " +:+ reason resp
                          +:+ " for url: " +:+ resp_url resp))
  else mret ().

(** [requests.get(url, stream=True)]. *)
Definition http_get (X : externals) (url : string) : M response :=
  emit (HttpGet url);;
  match requests_get X url with
  | Ret resp => mret resp
  | Raise e => raise e
  end.

(** [tempfile.NamedTemporaryFile(delete=False, suffix=".mp4")]: an empty
    file under the name the system picked. *)
Definition named_temporary_file (X : externals) : M string := λ w,
  let name := temp_name X (fs w) in
  (Ret name, World (<[name := []]> (fs w)) (trace w)).

(** [tmp.write(chunk)]. *)
Definition file_write (name : string) (chunk : bytes) : M unit := λ w,
  (Ret (), World (alter (λ old, old ++ chunk) name (fs w)) (trace w)).

(** The [for chunk in resp.iter_content(...)] loop; [if chunk:] is true
    for a non-empty [bytes]. *)
Fixpoint write_chunks (name : string) (chunks : list bytes) : M unit :=
  match chunks with
  | [] => mret ()
  | chunk :: rest =>
      (match chunk with
       | [] => mret ()
       | _ :: _ => file_write name chunk
       end);;
      write_chunks name rest
  end.

Definition download_video_to_temp (X : externals) (video_url : string)
  : M (option string) :=
  print ("Downloading video from " +:+ video_url);;
  resp ← http_get X video_url;
  if decide (status_code resp = 404) then
    print "  -> File not found (404), skipping.";;
    mret None
  else
    raise_for_status resp;;
    tmp ← named_temporary_file X;
    write_chunks tmp (iter_content resp);;
    print ("  -> Saved to " +:+ tmp);;
    mret (Some tmp).

(** ** Uploader *)

Definition disclosure : string :=
  Str.nl +:+ Str.nl +:+ "[Contains AI-generated or edited content]".

(** The [body] literal. *)
Definition initial_body (title description category_id privacy_status : string)
    (made_for_kids : bool) : gmap string pyval :=
  {[ "snippet" := PDict {[ "title" := PStr title;
                           "description" := PStr description;
                           "categoryId" := PStr category_id ]};
     "status" := PDict {[ "privacyStatus" := PStr privacy_status;
                          "selfDeclaredMadeForKids" := PBool made_for_kids ]} ]}.

(** [body["snippet"]["description"] += suffix]. *)
Definition append_description (suffix : string) (body : gmap string pyval)
  : M (gmap string pyval) :=
  match body !! "snippet" with
  | Some (PDict snippet) =>
      match snippet !! "description" with
      | Some (PStr old) =>
          mret (<["snippet" :=
                   PDict (<["description" := PStr (old +:+ suffix)]> snippet)]>
                  body)
      | Some _ => raise (Exn TypeError "unsupported operand type(s) for +=")
      | None => raise (Exn KeyError "'description'")
      end
  | Some _ => raise (Exn TypeError "object is not subscriptable")
  | None => raise (Exn KeyError "'snippet'")
  end.

(** [open(file_path, "rb")] followed by reading the whole file. *)
Definition open_rb (file_path : string) : M bytes := λ w,
  match fs w !! file_path with
  | Some content => (Ret content, w)
  | None =>
      (Raise (Exn FileNotFoundError
                ("[Errno 2] No such file or directory: '" +:+ file_path +:+ "'")),
       w)
  end.

(** [youtube.videos().insert(part=..., body=..., media_body=...).execute()]. *)
Definition execute_insert (X : externals) (youtube : credentials)
    (part : string) (body : gmap string pyval) (media : bytes)
  : M (gmap string string) :=
  emit (VideosInsert part body media);;
  match videos_insert X youtube part body media with
  | Ret resp => mret resp
  | Raise e => raise e
  end.

(** [f"{video_id}"] for the result of [response.get("id")]. *)
Definition format_id (video_id : option string) : string :=
  match video_id with
  | Some s => s
  | None => "None"
  end.

(** The function has no [return] statement: its value is Python's
    [None], here the [None] of [option string]. *)
Definition upload_one_video (X : externals) (youtube : credentials)
    (file_path title description category_id privacy_status : string)
    (made_for_kids altered_content : bool) : M (option string) :=
  print ("Uploading " +:+ file_path +:+ " to YouTube...");;
  let body :=
    initial_body title description category_id privacy_status made_for_kids in
  body ← (if altered_content then
            append_description disclosure
              (<["contentDetails" :=
                  PDict {[ "hasCustomThumbnail" := PBool false ]}]> body)
          else mret body);
  media ← open_rb file_path;
  response ← execute_insert X youtube "snippet,status" body media;
  let video_id := response !! "id" in
  print ("  -> Uploaded successfully, video id: " +:+ format_id video_id);;
  mret None.

(** ** Orchestrator *)

Definition nothing_uploaded : string :=
  "No files were uploaded today (nothing found in R2).".

(** The local variables [main] computes before the loop. *)
Record settings := Settings {
  base_url : string;
  prefix : string;
  title_prefix : string;
  description : string;
  category_id : string;
  privacy_status : string;
  made_for_kids : bool;
  altered_content : bool;
  max_daily_uploads : Z
}.

Definition slash : ascii → bool := Str.in_chars "/".

Definition load_settings (environ : gmap string string) : M settings :=
  raw_base ← environ_getitem environ "R2_BASE_URL";
  raw_prefix ← environ_getitem environ "R2_PREFIX_PATH";
  mret {| base_url := Str.rstrip slash raw_base;
          prefix := Str.strip slash raw_prefix;
          title_prefix := default "Daily Video" (getenv environ "YT_TITLE_PREFIX");
          description := default "" (getenv environ "YT_DESCRIPTION");
          category_id := default "22" (getenv environ "YT_CATEGORY_ID");
          privacy_status := default "public" (getenv environ "YT_PRIVACY_STATUS");
          made_for_kids := env_bool environ "YT_MADE_FOR_KIDS" false;
          altered_content := env_bool environ "YT_ALTERED_CONTENT" true;
          max_daily_uploads := env_int environ "YT_MAX_DAILY_UPLOADS" 1 |}.

(** [range(start, stop)]. *)
Definition py_range (start stop : Z) : list Z := seqZ start (stop - start).

Definition job_filename (today : string) (max_uploads index : Z) : string :=
  if decide (max_uploads = 1) then today +:+ ".mp4"
  else today +:+ "-" +:+ pretty index +:+ ".mp4".

Definition job_title (title_prefix today : string) (max_uploads index : Z)
  : string :=
  if decide (max_uploads = 1) then title_prefix +:+ " - " +:+ today
  else title_prefix +:+ " - " +:+ today +:+ " Part " +:+ pretty index.

Definition job_url (base_url prefix filename : string) : string :=
  base_url +:+ "/" +:+ prefix +:+ "/" +:+ filename.

Definition checking_line (video_url : string) : string :=
  Str.nl +:+ "=== Checking file: " +:+ video_url +:+ " ===".

Definition error_line (filename : string) (e : exn) : string :=
  "  -> Error with " +:+ filename +:+ ": " +:+ exn_str e.

(** One iteration of the [for index in range(...)] loop. It takes the
    current value of [uploaded_any] and returns the new one; [continue]
    leaves the [try] block with the flag unchanged. *)
Definition loop_body (X : externals) (cfg : settings) (youtube : credentials)
    (today : string) (index : Z) (uploaded_any : bool) : M bool :=
  let filename := job_filename today (max_daily_uploads cfg) index in
  let title :=
    job_title (title_prefix cfg) today (max_daily_uploads cfg) index in
  let video_url := job_url (base_url cfg) (prefix cfg) filename in
  print (checking_line video_url);;
  try_except
    (temp_path ← download_video_to_temp X video_url;
     match temp_path with
     | None => mret uploaded_any
     | Some path =>
         upload_one_video X youtube path title (description cfg)
           (category_id cfg) (privacy_status cfg) (made_for_kids cfg)
           (altered_content cfg);;
         mret true
     end)
    (λ e, print (error_line filename e);; mret uploaded_any).

(** The [for] statement over a list of indices. *)
Fixpoint for_each (body : Z → bool → M bool) (indices : list Z)
    (uploaded_any : bool) : M bool :=
  match indices with
  | [] => mret uploaded_any
  | index :: rest =>
      flag ← body index uploaded_any;
      for_each body rest flag
  end.

(** The loop and the closing notice, once the settings and the client
    exist. *)
Definition run_jobs (X : externals) (cfg : settings) (youtube : credentials)
    (today : string) : M unit :=
  uploaded_any ←
    for_each (loop_body X cfg youtube today)
      (py_range 1 (max_daily_uploads cfg + 1)) false;
  if negb uploaded_any then print nothing_uploaded else mret ().

Definition main (X : externals) (environ : gmap string string) : M unit :=
  let today := utc_today X in
  cfg ← load_settings environ;
  youtube ← build_youtube_client environ;
  run_jobs X cfg youtube today.

(** ** Vocabulary of the statements *)

(** The lines printed, the URLs requested and the uploads submitted
    along a trace, each in order. *)
Definition printed (t : list event) : list string :=
  omap (λ ev, match ev with Print line => Some line | _ => None end) t.

Definition fetched (t : list event) : list string :=
  omap (λ ev, match ev with HttpGet url => Some url | _ => None end) t.

Definition uploads (t : list event) : list (gmap string pyval * bytes) :=
  omap (λ ev, match ev with
              | VideosInsert _ body media => Some (body, media)
              | _ => None
              end) t.

(** How often the closing notice occurs among the printed lines. *)
Definition notices (t : list event) : nat :=
  length (filter (λ line, line = nothing_uploaded) (printed t)).

Definition nonempty (chunk : bytes) : bool :=
  match chunk with
  | [] => false
  | _ :: _ => true
  end.

(** The body's chunks that are not empty, joined. *)
Definition joined_chunks (resp : response) : bytes :=
  concat (List.filter nonempty (iter_content resp)).


(** A status for which [raise_for_status] raises. *)
Definition error_status (code : Z) : Prop := 400 ≤ code < 600.

(** The metadata document in closed form: what [upload_one_video]
    hands to the API, as shown in [upload_one_video_run]. *)
Definition upload_body (title description category_id privacy_status : string)
    (made_for_kids altered_content : bool) : gmap string pyval :=
  if altered_content then
    {[ "contentDetails" := PDict {[ "hasCustomThumbnail" := PBool false ]};
       "snippet" := PDict {[ "title" := PStr title;
                             "description" := PStr (description +:+ disclosure);
                             "categoryId" := PStr category_id ]};
       "status" := PDict {[ "privacyStatus" := PStr privacy_status;
                            "selfDeclaredMadeForKids" := PBool made_for_kids ]} ]}
  else
    initial_body title description category_id privacy_status made_for_kids.

(** [body["snippet"]["description"]], when it is a string. *)
Definition body_description (body : gmap string pyval) : option string :=
  match body !! "snippet" with
  | Some (PDict snippet) =>
      match snippet !! "description" with
      | Some (PStr text) => Some text
      | _ => None
      end
  | _ => None
  end.

(** How the job of one index ends, read off the collaborators. *)
Inductive job_outcome :=
| JobNotFound
| JobFailed (e : exn)
| JobUploaded (resp : gmap string string).

Definition http_error (resp : response) : exn :=
  let code := status_code resp in
  Exn HTTPError
    (pretty code +:+
     (if decide (400 ≤ code < 500) then " Client Error: " else " Server Error: ")
     +:+ reason resp +:+ " for url: " +:+ resp_url resp).

Definition outcome_of_job (X : externals) (cfg : settings)
    (youtube : credentials) (today : string) (index : Z) : job_outcome :=
  let filename := job_filename today (max_daily_uploads cfg) index in
  let title :=
    job_title (title_prefix cfg) today (max_daily_uploads cfg) index in
  match requests_get X (job_url (base_url cfg) (prefix cfg) filename) with
  | Raise e => JobFailed e
  | Ret resp =>
      if decide (status_code resp = 404) then JobNotFound
      else if decide (error_status (status_code resp)) then
        JobFailed (http_error resp)
      else
        match videos_insert X youtube "snippet,status"
                (upload_body title (description cfg) (category_id cfg)
                   (privacy_status cfg) (made_for_kids cfg)
                   (altered_content cfg))
                (joined_chunks resp) with
        | Ret answer => JobUploaded answer
        | Raise e => JobFailed e
        end
  end.

Definition job_uploaded (X : externals) (cfg : settings)
    (youtube : credentials) (today : string) (index : Z) : bool :=
  match outcome_of_job X cfg youtube today index with
  | JobUploaded _ => true
  | _ => false
  end.

(** The file names and the titles a run derives, in loop order. *)
Definition job_filenames (today : string) (max_uploads : Z) : list string :=
  job_filename today max_uploads <$> py_range 1 (max_uploads + 1).

Definition job_titles (title_prefix today : string) (max_uploads : Z)
  : list string :=
  job_title title_prefix today max_uploads <$> py_range 1 (max_uploads + 1).


(** The source URL as the specification words it: both the base URL and
    the prefix trimmed of leading and trailing slashes. *)
Definition url_with_both_trimmed (raw_base raw_prefix filename : string)
  : string :=
  Str.strip slash raw_base +:+ "/" +:+ Str.strip slash raw_prefix
  +:+ "/" +:+ filename.

(** A text made of [k] slashes. *)
Fixpoint slashes (k : nat) : string :=
  match k with
  | O => ""
  | S k' => String "/" (slashes k')
  end.

(** ** Vocabulary of the further statements *)

Definition required_variables : list string :=
  ["R2_BASE_URL"; "R2_PREFIX_PATH";
   "YT_REFRESH_TOKEN"; "YT_CLIENT_ID"; "YT_CLIENT_SECRET"].

(** The first of [keys], in order, that the environment lacks. *)
Fixpoint first_missing (environ : gmap string string) (keys : list string)
  : option string :=
  match keys with
  | [] => None
  | key :: rest =>
      match environ !! key with
      | Some _ => first_missing environ rest
      | None => Some key
      end
  end.

(** [body[section][key]]. *)
Definition body_field (body : gmap string pyval) (section key : string)
  : option pyval :=
  match body !! section with
  | Some (PDict fields) => fields !! key
  | _ => None
  end.

(** What the job of one index submits to the platform, if its fetch
    saved a file: the metadata document and the bytes. *)
Definition submission_of_job (X : externals) (cfg : settings) (today : string)
    (index : Z) : option (gmap string pyval * bytes) :=
  let filename := job_filename today (max_daily_uploads cfg) index in
  let title :=
    job_title (title_prefix cfg) today (max_daily_uploads cfg) index in
  match requests_get X (job_url (base_url cfg) (prefix cfg) filename) with
  | Raise _ => None
  | Ret resp =>
      if decide (status_code resp = 404) then None
      else if decide (error_status (status_code resp)) then None
      else Some (upload_body title (description cfg) (category_id cfg)
                   (privacy_status cfg) (made_for_kids cfg)
                   (altered_content cfg),
                 joined_chunks resp)
  end.

(** ** Concrete surroundings used in the examples *)

Module Sample.

Definition environ : gmap string string :=
  {[ "R2_BASE_URL" := "https://cdn.example.com";
     "R2_PREFIX_PATH" := "videos";
     "YT_REFRESH_TOKEN" := "r"; "YT_CLIENT_ID" := "c";
     "YT_CLIENT_SECRET" := "s" ]}.

Definition client : credentials := Credentials "r" "c" "s".

(** The settings [load_settings] reads from [environ]. *)
Definition one_a_day : settings :=
  Settings "https://cdn.example.com" "videos" "Daily Video" "" "22" "public"
    false true 1.

Definition two_a_day : settings :=
  Settings "https://cdn.example.com" "videos" "Daily Video" "" "22" "public"
    false true 2.

Definition clip : list bytes := [[Byte.x00; Byte.x01]; []; [Byte.x02]].

(** A store holding the file of the day. *)
Definition store (url : string) : outcome response :=
  if decide (url = "https://cdn.example.com/videos/2024-03-01.mp4") then
    Ret (Response 200 "OK" url clip)
  else Ret (Response 404 "Not Found" url []).

(** A store that drops the connection for part 1, holds part 2 and
    knows no other file. *)
Definition flaky_store (url : string) : outcome response :=
  if decide (url = "https://cdn.example.com/videos/2024-03-01-1.mp4") then
    Raise (Exn RequestException "Connection reset by peer")
  else if decide (url = "https://cdn.example.com/videos/2024-03-01-2.mp4")
  then Ret (Response 200 "OK" url clip)
  else Ret (Response 404 "Not Found" url []).


Definition platform (_ : credentials) (_ : string)
    (_ : gmap string pyval) (_ : bytes) : outcome (gmap string string) :=
  Ret {[ "kind" := "youtube#video"; "id" := "dQw4w9WgXcQ" ]}.

(** A platform that refuses every upload. *)
Definition closed_platform (_ : credentials) (_ : string)
    (_ : gmap string pyval) (_ : bytes) : outcome (gmap string string) :=
  Raise (Exn ApiError "quotaExceeded").

Definition scratch (_ : gmap string bytes) : string := "/tmp/tmpa1b2c3.mp4".

Definition X : externals := Externals "2024-03-01" store scratch platform.

Definition flaky : externals :=
  Externals "2024-03-01" flaky_store scratch platform.

Definition closed : externals :=
  Externals "2024-03-01" store scratch closed_platform.


Definition start : world := World ∅ [].

Definition day_url : string :=
  "https://cdn.example.com/videos/2024-03-01.mp4".

Definition part1_url : string :=
  "https://cdn.example.com/videos/2024-03-01-1.mp4".

(** An environment whose base URL starts and ends with a slash. *)
Definition rooted_environ : gmap string string :=
  <["R2_BASE_URL" := "/cdn.example.com/"]> environ.


(** A world in which a clip was already saved. *)
Definition saved : world :=
  World {[ "/tmp/clip.mp4" := [Byte.x00; Byte.x01; Byte.x02] ]} [].

End Sample.

(** * Properties *)

(** ** Text helpers *)

Module StrFacts.
Import Str.

Lemma cat_cons (a : ascii) (s t : string) :
  String a s +:+ t = String a (s +:+ t).
Proof. reflexivity. Qed.

Lemma cat_nil_l (t : string) : "" +:+ t = t.
Proof. reflexivity. Qed.

Lemma cat_nil_r (s : string) : s +:+ "" = s.
Proof.
  induction s as [|a s IH]; [done|]. by rewrite cat_cons, IH.
Qed.

Lemma cat_assoc (s t u : string) : (s +:+ t) +:+ u = s +:+ t +:+ u.
Proof.
  induction s as [|a s IH]; [done|]. by rewrite !cat_cons, IH.
Qed.

(** *** [lstrip] *)

Lemma lstrip_split p s :
  ∃ dropped, s = dropped +:+ lstrip p s ∧ all_chars p dropped = true.
Proof.
  induction s as [|a s (dropped & Hs & Hall)]; simpl.
  - by exists "".
  - destruct (p a) eqn:Hp.
    + exists (String a dropped). split; [by rewrite cat_cons, <- Hs|].
      simpl. by rewrite Hp.
    + by exists "".
Qed.

Lemma lstrip_head p s c : head (lstrip p s) = Some c → p c = false.
Proof.
  induction s as [|a s IH]; simpl; [done|].
  destruct (p a) eqn:Hp; [done|]. simpl. congruence.
Qed.

(** *** [rstrip] *)

Lemma rstrip_split p s :
  ∃ dropped, s = rstrip p s +:+ dropped ∧ all_chars p dropped = true.
Proof.
  induction s as [|a s (dropped & Hs & Hall)]; simpl.
  - by exists "".
  - destruct (rstrip p s) as [|b kept] eqn:Hr.
    + destruct (p a) eqn:Hp.
      * exists (String a dropped). rewrite cat_nil_l in *. split.
        -- by rewrite <- Hs.
        -- simpl. by rewrite Hp.
      * exists dropped. by rewrite !cat_cons, <- Hs.
    + exists dropped. by rewrite cat_cons, <- Hs.
Qed.

Lemma rstrip_last p s c : last (rstrip p s) = Some c → p c = false.
Proof.
  induction s as [|a s IH]; simpl; [done|].
  destruct (rstrip p s) as [|b kept] eqn:Hr.
  - destruct (p a) eqn:Hp; simpl; congruence.
  - simpl. simpl in IH. done.
Qed.

Lemma rstrip_head p s c : head (rstrip p s) = Some c → head s = Some c.
Proof.
  destruct s as [|a s]; simpl; [done|].
  destruct (rstrip p s); [destruct (p a)|]; simpl; congruence.
Qed.

(** Leading characters survive [rstrip] as long as one character of
    the string does not satisfy [p]. *)
Lemma rstrip_keeps_head p s a rest :
  s = String a rest → all_chars p s = false → head (rstrip p s) = Some a.
Proof.
  intros -> Hall. simpl in *.
  destruct (rstrip_split p rest) as (dropped & Hrest & Hdropped).
  destruct (rstrip p rest) as [|b kept]; [|done].
  rewrite cat_nil_l in Hrest. subst dropped. rewrite Hdropped in Hall.
  destruct (p a); [done|]. done.
Qed.

(** *** [strip] *)

Lemma strip_split p s :
  ∃ left right,
    s = left +:+ strip p s +:+ right
    ∧ all_chars p left = true ∧ all_chars p right = true.
Proof.
  destruct (lstrip_split p s) as (left & Hl & Hleft).
  destruct (rstrip_split p (lstrip p s)) as (right & Hr & Hright).
  exists left, right. unfold strip. by rewrite <- Hr, <- Hl.
Qed.

Lemma strip_head p s c : head (strip p s) = Some c → p c = false.
Proof. intros H. by eapply lstrip_head, rstrip_head. Qed.

Lemma strip_last p s c : last (strip p s) = Some c → p c = false.
Proof. apply rstrip_last. Qed.

(** *** Case folding *)







End StrFacts.

(** ** Running the statements *)

Ltac run_monad :=
  unfold mbind, M_bind, mret, M_ret, raise, print, emit; simpl.

Lemma world_eta w : World (fs w) (trace w) = w.
Proof. by destruct w. Qed.


Lemma write_chunks_run name chunks w old :
  fs w !! name = Some old →
  write_chunks name chunks w =
    (Ret (),
     World (<[name := old ++ concat (List.filter nonempty chunks)]> (fs w))
           (trace w)).
Proof.
  revert w old. induction chunks as [|chunk chunks IH]; intros w old Hold.
  - simpl. rewrite app_nil_r, insert_id by done. by rewrite world_eta.
  - destruct chunk as [|b chunk].
    + simpl. run_monad. by apply IH.
    + simpl. run_monad. unfold file_write.
      rewrite (IH _ (old ++ b :: chunk)); simpl.
      * rewrite (alter_alt_Some _ _ _ old) by done.
        by rewrite insert_insert_eq, <- app_assoc.
      * rewrite (alter_alt_Some _ _ _ old) by done. apply lookup_insert_eq.
Qed.

(** The fetcher, case by case. *)
Lemma download_run X url w :
  let seen := trace w ++ [Print ("Downloading video from " +:+ url); HttpGet url] in
  download_video_to_temp X url w =
    match requests_get X url with
    | Raise e => (Raise e, World (fs w) seen)
    | Ret resp =>
        if decide (status_code resp = 404) then
          (Ret None,
           World (fs w) (seen ++ [Print "  -> File not found (404), skipping."]))
        else if decide (error_status (status_code resp)) then
          (Raise (http_error resp), World (fs w) seen)
        else
          let tmp := temp_name X (fs w) in
          (Ret (Some tmp),
           World (<[tmp := joined_chunks resp]> (fs w))
                 (seen ++ [Print ("  -> Saved to " +:+ tmp)]))
    end.
Proof.
  unfold download_video_to_temp, http_get. run_monad.
  rewrite <- !app_assoc. simpl.
  destruct (requests_get X url) as [resp|e]; simpl; [|done].
  destruct (decide (status_code resp = 404)) as [H404|H404]; simpl.
  { by rewrite <- !app_assoc. }
  unfold raise_for_status, error_status, http_error.
  destruct (decide (400 ≤ status_code resp < 500)) as [H4|H4]; simpl.
  { rewrite decide_True by lia. done. }
  destruct (decide (500 ≤ status_code resp < 600)) as [H5|H5]; simpl.
  { rewrite decide_True by lia. done. }
  rewrite decide_False by lia.
  unfold named_temporary_file; simpl.
  rewrite (write_chunks_run _ _ _ []); simpl; [|apply lookup_insert_eq].
  by rewrite insert_insert_eq, <- !app_assoc.
Qed.

Lemma altered_body_run title description category_id privacy_status kids w :
  append_description disclosure
    (<["contentDetails" := PDict {[ "hasCustomThumbnail" := PBool false ]}]>
       (initial_body title description category_id privacy_status kids)) w
  = (Ret (upload_body title description category_id privacy_status kids true),
     w).
Proof. reflexivity. Qed.

(** The uploader, case by case. *)
Lemma upload_one_video_run X youtube path title description category_id
    privacy_status kids altered w :
  let body :=
    upload_body title description category_id privacy_status kids altered in
  let started :=
    trace w ++ [Print ("Uploading " +:+ path +:+ " to YouTube...")] in
  upload_one_video X youtube path title description category_id
    privacy_status kids altered w =
    match fs w !! path with
    | None =>
        (Raise (Exn FileNotFoundError
                  ("[Errno 2] No such file or directory: '" +:+ path +:+ "'")),
         World (fs w) started)
    | Some media =>
        let submitted := started ++ [VideosInsert "snippet,status" body media] in
        match videos_insert X youtube "snippet,status" body media with
        | Raise e => (Raise e, World (fs w) submitted)
        | Ret resp =>
            (Ret None,
             World (fs w)
               (submitted ++
                [Print ("  -> Uploaded successfully, video id: "
                        +:+ format_id (resp !! "id"))]))
        end
    end.
Proof.
  intros body started. unfold upload_one_video.
  assert (Hbody : ∀ v : world,
    (if altered
     then append_description disclosure
            (<["contentDetails" :=
                PDict {[ "hasCustomThumbnail" := PBool false ]}]>
               (initial_body title description category_id privacy_status kids))
     else mret
            (initial_body title description category_id privacy_status kids)) v
    = (Ret body, v)).
  { intros v. subst body. destruct altered; [apply altered_body_run|done]. }
  unfold mbind at 1. unfold M_bind at 1. unfold print, emit. simpl.
  unfold mbind at 1. unfold M_bind at 1. rewrite Hbody.
  unfold open_rb, execute_insert. run_monad. fold started.
  destruct (fs w !! path) as [media|]; simpl; [|done].
  destruct (videos_insert X youtube "snippet,status" body media) as [resp|e];
    simpl; by rewrite <- ?app_assoc.
Qed.

(** ** Reading traces *)

Lemma fetched_app t1 t2 : fetched (t1 ++ t2) = fetched t1 ++ fetched t2.
Proof. apply omap_app. Qed.

Lemma uploads_app t1 t2 : uploads (t1 ++ t2) = uploads t1 ++ uploads t2.
Proof. apply omap_app. Qed.

Lemma notices_app t1 t2 : notices (t1 ++ t2) = (notices t1 + notices t2)%nat.
Proof.
  unfold notices, printed. by rewrite omap_app, list.filter_app, length_app.
Qed.

Lemma notices_other_line line t :
  Str.head line ≠ Some "N"%char → notices (Print line :: t) = notices t.
Proof.
  intros Hhead. unfold notices. simpl. rewrite filter_cons.
  rewrite decide_False; [done|]. intros ->. by apply Hhead.
Qed.

Lemma notices_no_line ev t :
  (∀ line, ev ≠ Print line) → notices (ev :: t) = notices t.
Proof. intros Hev. destruct ev; [by destruct (Hev line)|done..]. Qed.

Ltac count_notices :=
  repeat first
    [ rewrite notices_other_line by (by vm_compute)
    | rewrite notices_no_line by done ].

(** ** The orchestrator *)

Section Orchestrator.

Context (X : externals) (cfg : settings) (youtube : credentials)
  (today : string).

(** One iteration, case by case. No branch ends in [Raise]. *)
Lemma loop_body_run index flag w :
  let filename := job_filename today (max_daily_uploads cfg) index in
  let title :=
    job_title (title_prefix cfg) today (max_daily_uploads cfg) index in
  let url := job_url (base_url cfg) (prefix cfg) filename in
  let body :=
    upload_body title (description cfg) (category_id cfg) (privacy_status cfg)
      (made_for_kids cfg) (altered_content cfg) in
  let seen :=
    trace w ++ [Print (checking_line url);
                Print ("Downloading video from " +:+ url); HttpGet url] in
  loop_body X cfg youtube today index flag w =
    match requests_get X url with
    | Raise e =>
        (Ret flag, World (fs w) (seen ++ [Print (error_line filename e)]))
    | Ret resp =>
        if decide (status_code resp = 404) then
          (Ret flag,
           World (fs w) (seen ++ [Print "  -> File not found (404), skipping."]))
        else if decide (error_status (status_code resp)) then
          (Ret flag,
           World (fs w) (seen ++ [Print (error_line filename (http_error resp))]))
        else
          let tmp := temp_name X (fs w) in
          let media := joined_chunks resp in
          let sent :=
            seen ++ [Print ("  -> Saved to " +:+ tmp);
                     Print ("Uploading " +:+ tmp +:+ " to YouTube...");
                     VideosInsert "snippet,status" body media] in
          match videos_insert X youtube "snippet,status" body media with
          | Raise e =>
              (Ret flag,
               World (<[tmp := media]> (fs w))
                     (sent ++ [Print (error_line filename e)]))
          | Ret answer =>
              (Ret true,
               World (<[tmp := media]> (fs w))
                     (sent ++ [Print ("  -> Uploaded successfully, video id: "
                                      +:+ format_id (answer !! "id"))]))
          end
    end.
Proof.
  intros filename title url body seen. unfold loop_body.
  fold filename title url. unfold try_except. subst seen.
  unfold mbind at 1. unfold M_bind at 1. unfold print, emit. simpl.
  unfold mbind at 1. unfold M_bind at 1. rewrite download_run. simpl.
  destruct (requests_get X url) as [resp|e]; simpl.
  2: { run_monad. by rewrite <- ?app_assoc. }
  destruct (decide (status_code resp = 404)); simpl.
  { by rewrite <- ?app_assoc. }
  destruct (decide (error_status (status_code resp))); simpl.
  { run_monad. by rewrite <- ?app_assoc. }
  unfold mbind at 1. unfold M_bind at 1.
  rewrite upload_one_video_run. simpl. rewrite lookup_insert_eq. fold body.
  destruct (videos_insert X youtube "snippet,status" body (joined_chunks resp));
    run_monad; by rewrite <- ?app_assoc.
Qed.

(** What one iteration adds to the trace and to [uploaded_any]. *)
Lemma loop_body_summary index flag w :
  ∃ files added,
    loop_body X cfg youtube today index flag w =
      (Ret (flag || job_uploaded X cfg youtube today index),
       World files (trace w ++ added))
    ∧ fetched added =
        [job_url (base_url cfg) (prefix cfg)
           (job_filename today (max_daily_uploads cfg) index)]
    ∧ notices added = 0%nat.
Proof.
  rewrite loop_body_run. unfold job_uploaded, outcome_of_job.
  destruct (requests_get X _) as [resp|e].
  2: { eexists _, _. rewrite orb_false_r, <- app_assoc.
       split; [done|]. split; [done|]. simpl. by count_notices. }
  destruct (decide (status_code resp = 404)).
  { eexists _, _. rewrite orb_false_r, <- app_assoc.
    split; [done|]. split; [done|]. simpl. by count_notices. }
  destruct (decide (error_status (status_code resp))).
  { eexists _, _. rewrite orb_false_r, <- app_assoc.
    split; [done|]. split; [done|]. simpl. by count_notices. }
  simpl. destruct (videos_insert X youtube _ _ _) as [answer|e].
  - eexists _, _. rewrite orb_true_r, <- !app_assoc.
    split; [done|]. split; [done|]. simpl. by count_notices.
  - eexists _, _. rewrite orb_false_r, <- !app_assoc.
    split; [done|]. split; [done|]. simpl. by count_notices.
Qed.

(** How an iteration ends, by the outcome of its job. *)
Lemma loop_body_outcome index flag w :
  ∃ files added,
    loop_body X cfg youtube today index flag w
    = (Ret (flag || job_uploaded X cfg youtube today index),
       World files (trace w ++ added))
    ∧ match outcome_of_job X cfg youtube today index with
      | JobNotFound =>
          files = fs w ∧ uploads added = []
          ∧ list.last added
            = Some (Print "  -> File not found (404), skipping.")
      | JobFailed e =>
          list.last added
          = Some (Print (error_line
                           (job_filename today (max_daily_uploads cfg) index)
                           e))
      | JobUploaded answer =>
          list.last added
          = Some (Print ("  -> Uploaded successfully, video id: "
                         +:+ format_id (answer !! "id")))
      end.
Proof.
  rewrite loop_body_run. unfold job_uploaded, outcome_of_job.
  destruct (requests_get X _) as [resp|e].
  2: { eexists _, _. rewrite orb_false_r, <- app_assoc. by split. }
  destruct (decide (status_code resp = 404)).
  { eexists _, _. rewrite orb_false_r, <- app_assoc. by split. }
  destruct (decide (error_status (status_code resp))).
  { eexists _, _. rewrite orb_false_r, <- app_assoc. by split. }
  simpl. destruct (videos_insert X youtube _ _ _) as [answer|e].
  - eexists _, _. rewrite orb_true_r, <- !app_assoc. by split.
  - eexists _, _. rewrite orb_false_r, <- !app_assoc. by split.
Qed.

(** The whole loop: it never raises, requests the URL of every index in
    order and sets the flag when some job was uploaded. *)
Lemma for_each_run indices flag w :
  ∃ files added,
    for_each (loop_body X cfg youtube today) indices flag w =
      (Ret (flag || existsb (job_uploaded X cfg youtube today) indices),
       World files (trace w ++ added))
    ∧ fetched added =
        (λ index, job_url (base_url cfg) (prefix cfg)
                    (job_filename today (max_daily_uploads cfg) index))
        <$> indices
    ∧ notices added = 0%nat.
Proof.
  revert flag w. induction indices as [|index indices IH]; intros flag w.
  - exists (fs w), []. simpl. rewrite orb_false_r, app_nil_r, world_eta. done.
  - destruct (loop_body_summary index flag w)
      as (files1 & added1 & Hrun1 & Hfetch1 & Hnotice1).
    destruct (IH (flag || job_uploaded X cfg youtube today index)
                 (World files1 (trace w ++ added1)))
      as (files2 & added2 & Hrun2 & Hfetch2 & Hnotice2).
    exists files2, (added1 ++ added2). simpl.
    unfold mbind, M_bind. rewrite Hrun1, Hrun2. simpl.
    rewrite orb_assoc, app_assoc, fetched_app, notices_app.
    by rewrite Hfetch1, Hfetch2, Hnotice1, Hnotice2.
Qed.

(** The loop followed by the closing notice. *)
Lemma run_jobs_run w :
  ∃ files added,
    run_jobs X cfg youtube today w = (Ret (), World files (trace w ++ added))
    ∧ fetched added =
        (λ index, job_url (base_url cfg) (prefix cfg)
                    (job_filename today (max_daily_uploads cfg) index))
        <$> py_range 1 (max_daily_uploads cfg + 1)
    ∧ notices added =
        if existsb (job_uploaded X cfg youtube today)
             (py_range 1 (max_daily_uploads cfg + 1))
        then 0%nat else 1%nat.
Proof.
  destruct (for_each_run (py_range 1 (max_daily_uploads cfg + 1)) false w)
    as (files & added & Hrun & Hfetch & Hnotice).
  unfold run_jobs, mbind, M_bind. rewrite Hrun. simpl.
  destruct (existsb _ _); simpl.
  - by exists files, added.
  - exists files, (added ++ [Print nothing_uploaded]). run_monad.
    rewrite app_assoc, fetched_app, notices_app, Hfetch, Hnotice.
    split; [done|]. split; [by rewrite app_nil_r|]. by vm_compute.
Qed.

(** *** The failure policy *)

(** C1. An exception raised by the fetch or by the upload of an index is
    caught inside that iteration: the iteration logs the exception with
    the file name of the index, leaves [uploaded_any] as it was and
    returns normally. No iteration raises, so the loop goes through all
    its indices, requesting the URL of each in order, and returns
    normally itself. *)
Theorem failure_isolation :
  (∀ index flag w,
     let filename := job_filename today (max_daily_uploads cfg) index in
     let title :=
       job_title (title_prefix cfg) today (max_daily_uploads cfg) index in
     let url := job_url (base_url cfg) (prefix cfg) filename in
     let w1 := World (fs w) (trace w ++ [Print (checking_line url)]) in
     (∃ flag' w', loop_body X cfg youtube today index flag w = (Ret flag', w'))
     ∧ (∀ e w2,
          download_video_to_temp X url w1 = (Raise e, w2) →
          loop_body X cfg youtube today index flag w =
            (Ret flag,
             World (fs w2) (trace w2 ++ [Print (error_line filename e)])))
     ∧ (∀ path w2 e w3,
          download_video_to_temp X url w1 = (Ret (Some path), w2) →
          upload_one_video X youtube path title (description cfg)
            (category_id cfg) (privacy_status cfg) (made_for_kids cfg)
            (altered_content cfg) w2 = (Raise e, w3) →
          loop_body X cfg youtube today index flag w =
            (Ret flag,
             World (fs w3) (trace w3 ++ [Print (error_line filename e)]))))
  ∧ (∀ indices flag w,
       ∃ flag' files added,
         for_each (loop_body X cfg youtube today) indices flag w =
           (Ret flag', World files (trace w ++ added))
         ∧ fetched added =
             (λ index, job_url (base_url cfg) (prefix cfg)
                         (job_filename today (max_daily_uploads cfg) index))
             <$> indices).
Proof.
  split.
  - intros index flag w filename title url w1. split; [|split].
    + destruct (loop_body_summary index flag w)
        as (files & added & Hrun & _). eauto.
    + intros e w2 Hfetch. unfold loop_body, try_except.
      fold filename title url. run_monad. fold w1.
      unfold mbind, M_bind. by rewrite Hfetch.
    + intros path w2 e w3 Hfetch Hupload. unfold loop_body, try_except.
      fold filename title url. run_monad. fold w1.
      unfold mbind, M_bind. rewrite Hfetch. unfold mbind, M_bind.
      by rewrite Hupload.
  - intros indices flag w.
    destruct (for_each_run indices flag w)
      as (files & added & Hrun & Hfetch & _). eauto.
Qed.

(** C7. When the fetch of an index returns the not-found outcome, the
    iteration ends there: [uploaded_any] keeps its value, no upload is
    submitted and no file is written. *)
Theorem not_found_skips_upload index flag w w2 :
  let url :=
    job_url (base_url cfg) (prefix cfg)
      (job_filename today (max_daily_uploads cfg) index) in
  download_video_to_temp X url
    (World (fs w) (trace w ++ [Print (checking_line url)])) = (Ret None, w2) →
  loop_body X cfg youtube today index flag w = (Ret flag, w2)
  ∧ uploads (trace w2) = uploads (trace w)
  ∧ fs w2 = fs w.
Proof.
  intros url Hfetch. split.
  - unfold loop_body, try_except. fold url. run_monad.
    unfold mbind, M_bind. by rewrite Hfetch.
  - rewrite download_run in Hfetch. simpl in Hfetch.
    destruct (requests_get X url) as [resp|e]; [|done].
    destruct (decide (status_code resp = 404)).
    + injection Hfetch as <-. simpl.
      rewrite !uploads_app. simpl. by rewrite !app_nil_r.
    + by destruct (decide (error_status (status_code resp))).
Qed.


End Orchestrator.

(** ** Start-up *)


Lemma environ_getitem_run environ key val w :
  environ !! key = Some val → environ_getitem environ key w = (Ret val, w).
Proof. intros H. unfold environ_getitem. by rewrite H. Qed.

(** Once the five required variables are present, [main] is the loop
    and the closing notice on the settings read from the environment. *)
Lemma main_after_startup X environ w :
  is_Some (environ !! "R2_BASE_URL") →
  is_Some (environ !! "R2_PREFIX_PATH") →
  is_Some (environ !! "YT_REFRESH_TOKEN") →
  is_Some (environ !! "YT_CLIENT_ID") →
  is_Some (environ !! "YT_CLIENT_SECRET") →
  ∃ cfg youtube,
    load_settings environ w = (Ret cfg, w)
    ∧ build_youtube_client environ w = (Ret youtube, w)
    ∧ main X environ w = run_jobs X cfg youtube (utc_today X) w.
Proof.
  intros [base Hbase] [pre Hpre] [token Htoken] [cid Hcid] [secret Hsecret].
  unfold main, load_settings, build_youtube_client, mbind, M_bind.
  rewrite (environ_getitem_run _ _ base), (environ_getitem_run _ _ pre) by done.
  simpl.
  rewrite (environ_getitem_run _ _ token), (environ_getitem_run _ _ cid),
    (environ_getitem_run _ _ secret) by done.
  simpl. by eexists _, _.
Qed.

(** A missing required variable ends [main] with [KeyError] before
    anything is printed or requested. *)
Lemma main_without_base_url X environ w :
  environ !! "R2_BASE_URL" = None →
  main X environ w = (Raise (Exn KeyError "'R2_BASE_URL'"), w).
Proof.
  intros Hnone. unfold main, load_settings, mbind, M_bind, environ_getitem.
  by rewrite Hnone.
Qed.


(** ** Fetcher *)


(** ** Uploader *)

Lemma upload_body_description title description category_id privacy_status
    kids altered :
  body_description
    (upload_body title description category_id privacy_status kids altered)
  = Some (if altered then description +:+ disclosure else description).
Proof. by destruct altered. Qed.

(** C2. A call of the uploader that returns normally returns Python's
    [None]; the identifier is looked up in the response under ["id"] and
    printed in the last line of the call. *)
Theorem upload_logs_video_id X youtube path title description category_id
    privacy_status kids altered w r w' :
  upload_one_video X youtube path title description category_id
    privacy_status kids altered w = (Ret r, w') →
  r = None
  ∧ ∃ media answer,
      fs w !! path = Some media
      ∧ videos_insert X youtube "snippet,status"
          (upload_body title description category_id privacy_status kids
             altered) media = Ret answer
      ∧ ∃ before,
          trace w' =
            before ++ [Print ("  -> Uploaded successfully, video id: "
                              +:+ format_id (answer !! "id"))].
Proof.
  rewrite upload_one_video_run. simpl.
  destruct (fs w !! path) as [media|]; [|done].
  destruct (videos_insert X youtube _ _ media) as [answer|e] eqn:Hinsert;
    [|done].
  intros [= <- <-]. split; [done|]. exists media, answer.
  split; [done|]. split; [done|]. by eexists.
Qed.

(** C4. The description in the document submitted to the platform is
    the given description followed by two line feeds and
    "[Contains AI-generated or edited content]" when [altered_content]
    is true, and the given description itself when it is false. *)
Theorem description_disclosure X youtube path title description category_id
    privacy_status kids altered w media :
  fs w !! path = Some media →
  ∃ r w' body,
    upload_one_video X youtube path title description category_id
      privacy_status kids altered w = (r, w')
    ∧ uploads (trace w') = uploads (trace w) ++ [(body, media)]
    ∧ body_description body =
        Some (if altered
              then description +:+ Str.nl +:+ Str.nl
                   +:+ "[Contains AI-generated or edited content]"
              else description).
Proof.
  intros Hfile.
  exists
    (fst (upload_one_video X youtube path title description category_id
            privacy_status kids altered w)),
    (snd (upload_one_video X youtube path title description category_id
            privacy_status kids altered w)),
    (upload_body title description category_id privacy_status kids altered).
  split; [by destruct (upload_one_video _ _ _ _ _ _ _ _ _ _)|].
  split; [|apply upload_body_description].
  rewrite upload_one_video_run, Hfile. simpl.
  destruct (videos_insert X youtube _ _ media); simpl;
    rewrite !uploads_app; simpl; by rewrite ?app_nil_r.
Qed.

(** ** Jobs of a run *)

Lemma py_range_lookup (n i : Z) :
  1 ≤ i ≤ n → py_range 1 (n + 1) !! Z.to_nat (i - 1) = Some i.
Proof.
  intros Hi. unfold py_range. rewrite lookup_seqZ. lia.
Qed.

(** C5. With a limit of one the run has the single file name
    [{date}.mp4] and the title [{prefix} - {date}], to which nothing is
    appended. With a limit [n] above one it has [n] file names and
    titles; those of index [i], for [i] from 1 to [n], are
    [{date}-{i}.mp4] and [{prefix} - {date} Part {i}]. The URLs a run
    requests are those of its file names, in order. *)
Theorem job_names title_prefix today :
  (job_filenames today 1 = [today +:+ ".mp4"]
   ∧ job_titles title_prefix today 1 = [title_prefix +:+ " - " +:+ today])
  ∧ (∀ n, 1 < n →
       length (job_filenames today n) = Z.to_nat n
       ∧ length (job_titles title_prefix today n) = Z.to_nat n
       ∧ ∀ i, 1 ≤ i ≤ n →
           job_filenames today n !! Z.to_nat (i - 1)
             = Some (today +:+ "-" +:+ pretty i +:+ ".mp4")
           ∧ job_titles title_prefix today n !! Z.to_nat (i - 1)
               = Some (title_prefix +:+ " - " +:+ today
                       +:+ " Part " +:+ pretty i))
  ∧ (∀ X cfg youtube w, ∃ files added,
       run_jobs X cfg youtube today w =
         (Ret (), World files (trace w ++ added))
       ∧ fetched added =
           job_url (base_url cfg) (prefix cfg)
           <$> job_filenames today (max_daily_uploads cfg)).
Proof.
  split; [done|]. split.
  - intros n Hn. unfold job_filenames, job_titles.
    rewrite !length_fmap. unfold py_range at 1 2. rewrite length_seqZ.
    split; [f_equal; lia|]. split; [f_equal; lia|].
    intros i Hi. rewrite !list_lookup_fmap, py_range_lookup by done. simpl.
    unfold job_filename, job_title. by rewrite !decide_False by lia.
  - intros X cfg youtube w.
    destruct (run_jobs_run X cfg youtube today w)
      as (files & added & Hrun & Hfetch & _).
    exists files, added. split; [done|].
    unfold job_filenames. by rewrite <- list_fmap_compose.
Qed.

(** ** Source URL *)

Lemma all_slashes t : Str.all_chars slash t = true → ∃ k, t = slashes k.
Proof.
  induction t as [|a t IH]; simpl.
  - by exists 0%nat.
  - unfold slash at 1. simpl. destruct (decide ("/"%char = a)) as [<-|]; [|done].
    simpl. intros (k & ->)%IH. by exists (S k).
Qed.

(** C3. The source URL is [{base}/{prefix}/{filename}], where [base] is
    [R2_BASE_URL] without its trailing slashes (leading ones stay) and
    [prefix] is [R2_PREFIX_PATH] without its leading and trailing
    slashes. *)
Theorem source_url_composition environ raw_base raw_prefix w :
  environ !! "R2_BASE_URL" = Some raw_base →
  environ !! "R2_PREFIX_PATH" = Some raw_prefix →
  ∃ cfg,
    load_settings environ w = (Ret cfg, w)
    ∧ (∀ filename,
         job_url (base_url cfg) (prefix cfg) filename
         = base_url cfg +:+ "/" +:+ prefix cfg +:+ "/" +:+ filename)
    ∧ (∃ k, raw_base = base_url cfg +:+ slashes k)
    ∧ Str.last (base_url cfg) ≠ Some "/"%char
    ∧ (∀ a rest, raw_base = String a rest →
         Str.all_chars slash raw_base = false →
         Str.head (base_url cfg) = Some a)
    ∧ (∃ i j, raw_prefix = slashes i +:+ prefix cfg +:+ slashes j)
    ∧ Str.head (prefix cfg) ≠ Some "/"%char
    ∧ Str.last (prefix cfg) ≠ Some "/"%char.
Proof.
  intros Hbase Hprefix. eexists. split.
  { unfold load_settings, mbind, M_bind.
    rewrite (environ_getitem_run _ _ raw_base),
      (environ_getitem_run _ _ raw_prefix) by done.
    reflexivity. }
  simpl. split; [done|]. split; [|split; [|split; [|split; [|split]]]].
  - destruct (StrFacts.rstrip_split slash raw_base) as (t & Ht & Hall).
    destruct (all_slashes t Hall) as (k & ->). by exists k.
  - intros Hlast%StrFacts.rstrip_last. by vm_compute in Hlast.
  - intros a rest. apply StrFacts.rstrip_keeps_head.
  - destruct (StrFacts.strip_split slash raw_prefix)
      as (l & r & Hsplit & Hl & Hr).
    destruct (all_slashes l Hl) as (i & ->).
    destruct (all_slashes r Hr) as (j & ->). by exists i, j.
  - intros Hhead%StrFacts.strip_head. by vm_compute in Hhead.
  - intros Hlast%StrFacts.strip_last. by vm_compute in Hlast.
Qed.

(** ** Boolean settings *)


(** ** The statements at concrete inputs *)

Lemma failure_isolation_witness :
  loop_body Sample.flaky Sample.two_a_day Sample.client "2024-03-01" 1 false
    Sample.start
  = (Ret false,
     World ∅
       [Print (checking_line Sample.part1_url);
        Print ("Downloading video from " +:+ Sample.part1_url);
        HttpGet Sample.part1_url;
        Print "  -> Error with 2024-03-01-1.mp4: Connection reset by peer"]).
Proof.
  destruct (proj1 (failure_isolation Sample.flaky Sample.two_a_day
                     Sample.client "2024-03-01") 1 false Sample.start)
    as (_ & Hfetch & _).
  etrans.
  - apply (Hfetch (Exn RequestException "Connection reset by peer")
             (World ∅
                [Print (checking_line Sample.part1_url);
                 Print ("Downloading video from " +:+ Sample.part1_url);
                 HttpGet Sample.part1_url])).
    vm_compute. reflexivity.
  - vm_compute. reflexivity.
Defined.

Lemma not_found_skips_upload_witness :
  ∃ w2,
    loop_body Sample.X Sample.two_a_day Sample.client "2024-03-01" 1 false
      Sample.start = (Ret false, w2)
    ∧ uploads (trace w2) = []
    ∧ fs w2 = ∅.
Proof.
  eexists.
  apply (not_found_skips_upload Sample.X Sample.two_a_day Sample.client
           "2024-03-01" 1 false Sample.start).
  vm_compute. reflexivity.
Defined.



Lemma upload_logs_video_id_witness :
  ∃ media answer,
    fs Sample.saved !! "/tmp/clip.mp4" = Some media
    ∧ videos_insert Sample.X Sample.client "snippet,status"
        (upload_body "Daily Video - 2024-03-01" "" "22" "public" false true)
        media = Ret answer
    ∧ ∃ before,
        trace (snd (upload_one_video Sample.X Sample.client "/tmp/clip.mp4"
                      "Daily Video - 2024-03-01" "" "22" "public" false true
                      Sample.saved))
        = before ++ [Print ("  -> Uploaded successfully, video id: "
                            +:+ format_id (answer !! "id"))].
Proof.
  apply (upload_logs_video_id Sample.X Sample.client "/tmp/clip.mp4"
           "Daily Video - 2024-03-01" "" "22" "public" false true
           Sample.saved None).
  vm_compute. reflexivity.
Defined.

Lemma description_disclosure_witness :
  ∃ r w' body,
    upload_one_video Sample.X Sample.client "/tmp/clip.mp4"
      "Daily Video - 2024-03-01" "Recorded today" "22" "public" false true
      Sample.saved = (r, w')
    ∧ uploads (trace w') = [(body, [Byte.x00; Byte.x01; Byte.x02])]
    ∧ body_description body =
        Some ("Recorded today" +:+ Str.nl +:+ Str.nl
              +:+ "[Contains AI-generated or edited content]").
Proof.
  apply (description_disclosure Sample.X Sample.client "/tmp/clip.mp4"
           "Daily Video - 2024-03-01" "Recorded today" "22" "public" false
           true Sample.saved).
  vm_compute. reflexivity.
Defined.

Lemma job_names_witness :
  job_filenames "2024-03-01" 3 !! 1%nat = Some "2024-03-01-2.mp4"
  ∧ job_titles "Daily Video" "2024-03-01" 3 !! 1%nat
    = Some "Daily Video - 2024-03-01 Part 2".
Proof.
  destruct (job_names "Daily Video" "2024-03-01") as (_ & Hmany & _).
  destruct (Hmany 3) as (_ & _ & Hindex); [lia|].
  apply (Hindex 2). lia.
Defined.

Lemma source_url_composition_witness :
  ∃ cfg,
    load_settings Sample.rooted_environ Sample.start = (Ret cfg, Sample.start)
    ∧ job_url (base_url cfg) (prefix cfg) "2024-03-01.mp4"
      = base_url cfg +:+ "/" +:+ prefix cfg +:+ "/" +:+ "2024-03-01.mp4"
    ∧ Str.head (base_url cfg) = Some "/"%char.
Proof.
  destruct (source_url_composition Sample.rooted_environ "/cdn.example.com/"
              "videos" Sample.start)
    as (cfg & Hload & Hurl & _ & _ & Hhead & _).
  - vm_compute. reflexivity.
  - vm_compute. reflexivity.
  - exists cfg. split; [done|]. split; [apply Hurl|].
    apply (Hhead "/"%char "cdn.example.com/"); vm_compute; reflexivity.
Defined.

(** ** Where the code departs from the wording *)

(** The uploader is given a response whose identifier is
    "dQw4w9WgXcQ" and returns [None]. *)
Lemma upload_returns_none :
  videos_insert Sample.X Sample.client "snippet,status"
    (upload_body "Daily Video - 2024-03-01" "" "22" "public" false true)
    [Byte.x00; Byte.x01; Byte.x02]
  = Ret {[ "kind" := "youtube#video"; "id" := "dQw4w9WgXcQ" ]}
  ∧ fst (upload_one_video Sample.X Sample.client "/tmp/clip.mp4"
           "Daily Video - 2024-03-01" "" "22" "public" false true Sample.saved)
    = Ret None
  ∧ fst (upload_one_video Sample.X Sample.client "/tmp/clip.mp4"
           "Daily Video - 2024-03-01" "" "22" "public" false true Sample.saved)
    ≠ Ret (Some "dQw4w9WgXcQ").
Proof. split; [|split]; by vm_compute. Qed.

(** With [R2_BASE_URL] set to "/cdn.example.com/" the requested URL
    keeps the leading slash, which trimming on both sides removes. *)
Lemma base_url_keeps_leading_slash :
  load_settings Sample.rooted_environ Sample.start
  = (Ret (Settings "/cdn.example.com" "videos" "Daily Video" "" "22" "public"
            false true 1),
     Sample.start)
  ∧ job_url "/cdn.example.com" "videos" "2024-03-01.mp4"
    = "/cdn.example.com/videos/2024-03-01.mp4"
  ∧ url_with_both_trimmed "/cdn.example.com/" "videos" "2024-03-01.mp4"
    = "cdn.example.com/videos/2024-03-01.mp4"
  ∧ job_url "/cdn.example.com" "videos" "2024-03-01.mp4"
    ≠ url_with_both_trimmed "/cdn.example.com/" "videos" "2024-03-01.mp4".
Proof. split; [|split; [|split]]; by vm_compute. Qed.


(** ** A day's run, end to end *)

(** The store holds the file of the day: one request, one upload under
    the title "Daily Video - 2024-03-01", the identifier in the last
    line, no closing notice. *)
Example daily_run :
  let '(r, w) := main Sample.X Sample.environ Sample.start in
  r = Ret ()
  ∧ fetched (trace w) = [Sample.day_url]
  ∧ uploads (trace w)
    = [(upload_body "Daily Video - 2024-03-01" "" "22" "public" false true,
        [Byte.x00; Byte.x01; Byte.x02])]
  ∧ list.last (printed (trace w))
    = Some "  -> Uploaded successfully, video id: dQw4w9WgXcQ"
  ∧ notices (trace w) = 0%nat.
Proof. by vm_compute. Qed.

(** Part 1 fails in transit and part 2 is uploaded all the same. *)
Example run_after_failure :
  let '(r, w) :=
    run_jobs Sample.flaky Sample.two_a_day Sample.client "2024-03-01"
      Sample.start in
  r = Ret ()
  ∧ printed (trace w)
    = [checking_line Sample.part1_url;
       "Downloading video from " +:+ Sample.part1_url;
       "  -> Error with 2024-03-01-1.mp4: Connection reset by peer";
       checking_line "https://cdn.example.com/videos/2024-03-01-2.mp4";
       "Downloading video from https://cdn.example.com/videos/2024-03-01-2.mp4";
       "  -> Saved to /tmp/tmpa1b2c3.mp4";
       "Uploading /tmp/tmpa1b2c3.mp4 to YouTube...";
       "  -> Uploaded successfully, video id: dQw4w9WgXcQ"].
Proof. by vm_compute. Qed.

(** A refused upload is logged and the run closes with the notice. *)
Example run_with_refused_upload :
  let '(r, w) :=
    run_jobs Sample.closed Sample.one_a_day Sample.client "2024-03-01"
      Sample.start in
  r = Ret ()
  ∧ list.last (printed (trace w)) = Some nothing_uploaded
  ∧ notices (trace w) = 1%nat
  ∧ printed (trace w) !! 4%nat
    = Some "  -> Error with 2024-03-01.mp4: quotaExceeded".
Proof. by vm_compute. Qed.

Example env_bool_values :
  env_bool {[ "F" := "YES" ]} "F" false = true
  ∧ env_bool {[ "F" := "True" ]} "F" false = true
  ∧ env_bool {[ "F" := "on" ]} "F" true = false
  ∧ env_bool {[ "F" := " 1" ]} "F" true = false
  ∧ env_bool ∅ "F" true = true.
Proof. by vm_compute. Qed.

Example env_int_values :
  env_int {[ "N" := "3" ]} "N" 1 = 3
  ∧ env_int {[ "N" := " -2 " ]} "N" 1 = -2
  ∧ env_int {[ "N" := "1_000" ]} "N" 1 = 1000
  ∧ env_int {[ "N" := "three" ]} "N" 1 = 1
  ∧ env_int {[ "N" := "" ]} "N" 1 = 1
  ∧ env_int ∅ "N" 1 = 1.
Proof. by vm_compute. Qed.

(** * Further properties *)

(** ** Reading back printed integers *)

Lemma is_nat_pretty_char (d : N) :
  (d < 10)%N → Ascii.is_nat (pretty_N_char d) = Some (N.to_nat d).
Proof.
  intros Hd.
  assert (d = 0 ∨ d = 1 ∨ d = 2 ∨ d = 3 ∨ d = 4 ∨ d = 5 ∨ d = 6 ∨ d = 7
          ∨ d = 8 ∨ d = 9)%N as Hcases by lia.
  destruct Hcases as [->|[->|[->|[->|[->|[->|[->|[->|[->| ->]]]]]]]]]; reflexivity.
Qed.

(** Reading the digits that [pretty] writes in front of [s]. *)
Lemma digits_pretty_go (x : N) :
  (0 < x)%N →
  ∃ k : Z, 0 ≤ k ∧ ∀ acc after s,
    Str.digits acc after (pretty_N_go x s)
    = Str.digits (acc * 10 ^ k + Z.of_N x) true s.
Proof.
  induction (N.lt_wf_0 x) as [x _ IH]. intros Hx.
  assert (Hd : (x `mod` 10 < 10)%N) by (apply N.mod_lt; lia).
  pose proof (N.div_mod x 10 ltac:(lia)) as Hdm.
  destruct (decide (x `div` 10 = 0)%N) as [Hsmall|Hbig].
  - exists 1. split; [lia|]. intros acc after s.
    rewrite pretty_N_go_step, Hsmall, pretty_N_go_0 by done. simpl.
    rewrite is_nat_pretty_char by done. f_equal.
    rewrite N_nat_Z, Z.pow_1_r.
    remember (x `div` 10)%N as q eqn:Hq. remember (x `mod` 10)%N as r eqn:Hr.
    clear Hq Hr. lia.
  - destruct (IH (x `div` 10)%N) as (k & Hk & Hread).
    { apply N.div_lt; lia. } { lia. }
    exists (k + 1). split; [lia|]. intros acc after s.
    rewrite pretty_N_go_step, Hread by done. simpl.
    rewrite is_nat_pretty_char by done. f_equal.
    rewrite N_nat_Z, Z.pow_add_r, Z.pow_1_r by lia.
    remember (x `div` 10)%N as q eqn:Hq. remember (x `mod` 10)%N as r eqn:Hr.
    clear Hq Hr IH Hread. lia.
Qed.

Lemma lstrip_none p s :
  Str.all_chars (λ c, negb (p c)) s = true → Str.lstrip p s = s.
Proof.
  destruct s as [|a s]; simpl; [done|]. by destruct (p a).
Qed.

Lemma rstrip_none p s :
  Str.all_chars (λ c, negb (p c)) s = true → Str.rstrip p s = s.
Proof.
  induction s as [|a s IH]; simpl; [done|].
  destruct (p a) eqn:Hp; simpl; [done|]. intros Hs.
  rewrite IH by done. by destruct s.
Qed.

Lemma strip_none p s :
  Str.all_chars (λ c, negb (p c)) s = true → Str.strip p s = s.
Proof.
  intros Hs. unfold Str.strip. rewrite lstrip_none by done.
  by apply rstrip_none.
Qed.

Lemma pretty_char_no_space (d : N) : Str.is_space (pretty_N_char d) = false.
Proof. unfold pretty_N_char. by repeat case_match. Qed.

Lemma pretty_go_no_space (x : N) s :
  Str.all_chars (λ c, negb (Str.is_space c)) s = true →
  Str.all_chars (λ c, negb (Str.is_space c)) (pretty_N_go x s) = true.
Proof.
  revert s. induction (N.lt_wf_0 x) as [x _ IH]. intros s Hs.
  destruct (decide (0 < x)%N) as [Hx|Hx].
  - rewrite pretty_N_go_step by done. apply IH; [apply N.div_lt; lia|].
    simpl. by rewrite pretty_char_no_space.
  - assert (x = 0%N) as -> by lia. by rewrite pretty_N_go_0.
Qed.

Lemma pretty_go_head (x : N) s :
  (0 < x)%N →
  ∃ d rest, (d < 10)%N ∧ pretty_N_go x s = String (pretty_N_char d) rest.
Proof.
  revert s. induction (N.lt_wf_0 x) as [x _ IH]. intros s Hx.
  rewrite pretty_N_go_step by done.
  destruct (decide (x `div` 10 = 0)%N) as [Hq|Hq].
  - rewrite Hq, pretty_N_go_0.
    eexists _, _. split; [|done]. apply N.mod_lt. lia.
  - apply IH; [apply N.div_lt; lia|]. by apply N.neq_0_lt_0.
Qed.

(** [int(str(n))] is [n]. *)
Lemma to_int_pretty (n : Z) : Str.to_int (pretty n) = Some n.
Proof.
  destruct n as [|p|p]; [done| |].
  - unfold pretty, pretty_Z, pretty, pretty_positive, pretty, pretty_N.
    rewrite decide_False by done. unfold Str.to_int.
    rewrite strip_none by by apply pretty_go_no_space.
    destruct (digits_pretty_go (N.pos p)) as (k & Hk & Hread); [done|].
    destruct (pretty_go_head (N.pos p) "") as (d & rest & Hd & Hhead);
      [done|].
    trans (Str.digits 0 false (pretty_N_go (N.pos p) "")).
    { rewrite Hhead.
      assert (d = 0 ∨ d = 1 ∨ d = 2 ∨ d = 3 ∨ d = 4 ∨ d = 5 ∨ d = 6 ∨ d = 7
              ∨ d = 8 ∨ d = 9)%N as Hcases by lia.
      destruct Hcases as [->|[->|[->|[->|[->|[->|[->|[->|[->| ->]]]]]]]]];
        reflexivity. }
    rewrite Hread. simpl. f_equal.
  - unfold pretty, pretty_Z, pretty, pretty_positive, pretty, pretty_N.
    rewrite decide_False by done. unfold Str.to_int.
    rewrite strip_none.
    2: { rewrite StrFacts.cat_cons, StrFacts.cat_nil_l. simpl.
         by apply pretty_go_no_space. }
    rewrite StrFacts.cat_cons, StrFacts.cat_nil_l.
    destruct (digits_pretty_go (N.pos p)) as (k & Hk & Hread); [done|].
    rewrite Hread. simpl. f_equal.
Qed.

(** ** Integer settings *)

(** X1. When the variable is absent, [env_int] returns the caller's
    default: the default is printed with [str] and read back by [int]
    unchanged, negative defaults included. *)
Theorem env_int_absent environ name dflt :
  environ !! name = None → env_int environ name dflt = dflt.
Proof.
  intros Hnone. unfold env_int, getenv. by rewrite Hnone, to_int_pretty.
Qed.


(** ** Start-up *)

(** X3. [main] looks up R2_BASE_URL, R2_PREFIX_PATH, YT_REFRESH_TOKEN,
    YT_CLIENT_ID and YT_CLIENT_SECRET in this order. If one is missing it
    raises [KeyError] for the first missing one with nothing printed,
    requested or written; if none is missing it returns normally. *)
Theorem main_startup X environ w :
  match first_missing environ required_variables with
  | Some key => main X environ w = (Raise (Exn KeyError ("'" +:+ key +:+ "'")), w)
  | None =>
      ∃ files added,
        main X environ w = (Ret (), World files (trace w ++ added))
  end.
Proof.
  unfold required_variables. simpl.
  destruct (environ !! "R2_BASE_URL") as [base|] eqn:Hbase.
  2: { unfold main, load_settings, mbind, M_bind, environ_getitem.
       by rewrite Hbase. }
  destruct (environ !! "R2_PREFIX_PATH") as [pre|] eqn:Hpre.
  2: { unfold main, load_settings, mbind, M_bind, environ_getitem.
       by rewrite Hbase, Hpre. }
  destruct (environ !! "YT_REFRESH_TOKEN") as [token|] eqn:Htoken.
  2: { unfold main, load_settings, build_youtube_client, mbind, M_bind,
         environ_getitem.
       by rewrite Hbase, Hpre, Htoken. }
  destruct (environ !! "YT_CLIENT_ID") as [cid|] eqn:Hcid.
  2: { unfold main, load_settings, build_youtube_client, mbind, M_bind,
         environ_getitem.
       by rewrite Hbase, Hpre, Htoken, Hcid. }
  destruct (environ !! "YT_CLIENT_SECRET") as [secret|] eqn:Hsecret.
  2: { unfold main, load_settings, build_youtube_client, mbind, M_bind,
         environ_getitem.
       by rewrite Hbase, Hpre, Htoken, Hcid, Hsecret. }
  destruct (main_after_startup X environ w) as (cfg & youtube & _ & _ & ->);
    [by eexists..|].
  destruct (run_jobs_run X cfg youtube (utc_today X) w)
    as (files & added & Hrun & _). eauto.
Qed.

(** ** Fetcher *)


(** X5. Whatever happens, the fetcher sends one request, to the URL it
    was given, submits no upload, and leaves every file other than the
    scratch file as it was. *)
Theorem fetch_effects X url w :
  ∃ r w',
    download_video_to_temp X url w = (r, w')
    ∧ fetched (trace w') = fetched (trace w) ++ [url]
    ∧ uploads (trace w') = uploads (trace w)
    ∧ ∀ path, path ≠ temp_name X (fs w) → fs w' !! path = fs w !! path.
Proof.
  rewrite download_run. simpl.
  destruct (requests_get X url) as [resp|e].
  2: { eexists _, _. split; [done|]. simpl.
       rewrite fetched_app, uploads_app. simpl. by rewrite app_nil_r. }
  destruct (decide (status_code resp = 404)).
  { eexists _, _. split; [done|]. simpl.
    rewrite !fetched_app, !uploads_app. simpl. by rewrite !app_nil_r. }
  destruct (decide (error_status (status_code resp))).
  { eexists _, _. split; [done|]. simpl.
    rewrite fetched_app, uploads_app. simpl. by rewrite app_nil_r. }
  eexists _, _. split; [done|]. simpl.
  rewrite !fetched_app, !uploads_app. simpl. rewrite !app_nil_r.
  split; [done|]. split; [done|].
  intros path Hpath. by rewrite lookup_insert_ne.
Qed.


(** ** Uploader *)

(** X7. When the file to upload does not exist, the uploader raises
    [FileNotFoundError] after its first log line and before anything is
    submitted to the platform. *)
Theorem upload_missing_file X youtube path title description category_id
    privacy_status kids altered w :
  fs w !! path = None →
  ∃ e w',
    upload_one_video X youtube path title description category_id
      privacy_status kids altered w = (Raise e, w')
    ∧ exn_kind e = FileNotFoundError
    ∧ uploads (trace w') = uploads (trace w)
    ∧ printed (trace w')
      = printed (trace w) ++ ["Uploading " +:+ path +:+ " to YouTube..."].
Proof.
  intros Hnone. rewrite upload_one_video_run, Hnone. simpl.
  eexists _, _. split; [done|]. split; [done|]. simpl.
  rewrite uploads_app. simpl. rewrite app_nil_r. split; [done|].
  unfold printed. by rewrite omap_app.
Qed.

(** X8. The uploader never creates, changes or removes a file (the
    scratch file stays where it is), sends no HTTP request and submits
    at most one upload. *)
Theorem upload_keeps_files X youtube path title description category_id
    privacy_status kids altered w :
  ∃ r w',
    upload_one_video X youtube path title description category_id
      privacy_status kids altered w = (r, w')
    ∧ fs w' = fs w
    ∧ fetched (trace w') = fetched (trace w)
    ∧ (length (uploads (trace w')) ≤ S (length (uploads (trace w))))%nat.
Proof.
  rewrite upload_one_video_run. simpl.
  destruct (fs w !! path) as [media|].
  2: { eexists _, _. split; [done|]. simpl.
       rewrite fetched_app, uploads_app. simpl. rewrite !app_nil_r.
       split; [done|]. split; [done|]. lia. }
  destruct (videos_insert X youtube _ _ media) as [answer|e];
    eexists _, _; (split; [done|]); simpl;
    rewrite !fetched_app, !uploads_app; simpl; rewrite !app_nil_r;
    (split; [done|]); (split; [done|]); rewrite length_app; simpl; lia.
Qed.

(** X9. An exception raised by the platform's insert call leaves the
    uploader as it is: the document and the bytes were submitted once
    and the success line is not printed. *)
Theorem upload_failure_propagates X youtube path title description category_id
    privacy_status kids altered w media e :
  fs w !! path = Some media →
  videos_insert X youtube "snippet,status"
    (upload_body title description category_id privacy_status kids altered)
    media = Raise e →
  ∃ w',
    upload_one_video X youtube path title description category_id
      privacy_status kids altered w = (Raise e, w')
    ∧ printed (trace w')
      = printed (trace w) ++ ["Uploading " +:+ path +:+ " to YouTube..."]
    ∧ uploads (trace w')
      = uploads (trace w)
        ++ [(upload_body title description category_id privacy_status kids
               altered, media)].
Proof.
  intros Hfile Hinsert. rewrite upload_one_video_run, Hfile. simpl.
  rewrite Hinsert. eexists. split; [done|]. simpl.
  unfold printed, uploads. rewrite !omap_app. simpl.
  by rewrite !app_nil_r.
Qed.

Lemma upload_body_shape title description category_id privacy_status kids
    altered :
  let body :=
    upload_body title description category_id privacy_status kids altered in
  body_field body "snippet" "title" = Some (PStr title)
  ∧ body_field body "snippet" "categoryId" = Some (PStr category_id)
  ∧ body_field body "status" "privacyStatus" = Some (PStr privacy_status)
  ∧ body_field body "status" "selfDeclaredMadeForKids" = Some (PBool kids)
  ∧ body_field body "contentDetails" "hasCustomThumbnail"
    = (if altered then Some (PBool false) else None)
  ∧ dom body
    = if altered then {[ "contentDetails"; "snippet"; "status" ]}
      else ({[ "snippet"; "status" ]} : gset string).
Proof.
  simpl. split; [by destruct altered|]. split; [by destruct altered|].
  split; [by destruct altered|]. split; [by destruct altered|].
  split; [by destruct altered|].
  unfold upload_body, initial_body.
  destruct altered; rewrite !dom_insert_L, dom_singleton_L; set_solver.
Qed.

(** X10. The submitted document carries the title, category, privacy
    status and made-for-kids flag it was given, whether or not
    [altered_content] is set. Its sections are snippet and status, plus
    a contentDetails section with hasCustomThumbnail false exactly when
    [altered_content] is true. *)
Theorem upload_body_fields X youtube path title description category_id
    privacy_status kids altered w media :
  fs w !! path = Some media →
  ∃ r w' body,
    upload_one_video X youtube path title description category_id
      privacy_status kids altered w = (r, w')
    ∧ uploads (trace w') = uploads (trace w) ++ [(body, media)]
    ∧ body_field body "snippet" "title" = Some (PStr title)
    ∧ body_field body "snippet" "categoryId" = Some (PStr category_id)
    ∧ body_field body "status" "privacyStatus" = Some (PStr privacy_status)
    ∧ body_field body "status" "selfDeclaredMadeForKids" = Some (PBool kids)
    ∧ body_field body "contentDetails" "hasCustomThumbnail"
      = (if altered then Some (PBool false) else None)
    ∧ dom body
      = if altered then {[ "contentDetails"; "snippet"; "status" ]}
        else ({[ "snippet"; "status" ]} : gset string).
Proof.
  intros Hfile.
  exists
    (fst (upload_one_video X youtube path title description category_id
            privacy_status kids altered w)),
    (snd (upload_one_video X youtube path title description category_id
            privacy_status kids altered w)),
    (upload_body title description category_id privacy_status kids altered).
  split; [by destruct (upload_one_video _ _ _ _ _ _ _ _ _ _)|].
  split; [|apply upload_body_shape].
  rewrite upload_one_video_run, Hfile. simpl.
  destruct (videos_insert X youtube _ _ media); simpl;
    rewrite !uploads_app; simpl; by rewrite ?app_nil_r.
Qed.

(** ** Distinct jobs *)

Lemma cat_length (s t : string) :
  String.length (s +:+ t) = (String.length s + String.length t)%nat.
Proof.
  induction s as [|a s IH]; [done|].
  rewrite StrFacts.cat_cons. simpl. by rewrite IH.
Qed.

(** A common ending can be cancelled. *)
Lemma cat_cancel_r (s s' t : string) : s +:+ t = s' +:+ t → s = s'.
Proof.
  revert s'. induction s as [|a s IH]; intros [|b s'] Heq.
  - done.
  - apply (f_equal String.length) in Heq.
    rewrite StrFacts.cat_nil_l, StrFacts.cat_cons in Heq. simpl in Heq.
    rewrite cat_length in Heq. lia.
  - apply (f_equal String.length) in Heq.
    rewrite StrFacts.cat_nil_l, StrFacts.cat_cons in Heq. simpl in Heq.
    rewrite cat_length in Heq. lia.
  - rewrite !StrFacts.cat_cons in Heq. injection Heq as -> Heq.
    by rewrite (IH s').
Qed.

Lemma job_filename_inj today n i j :
  n ≠ 1 → job_filename today n i = job_filename today n j → i = j.
Proof.
  intros Hn. unfold job_filename. rewrite !decide_False by done.
  intros Heq. apply (inj (String.app today)) in Heq.
  apply (inj (String.app "-")) in Heq. apply cat_cancel_r in Heq.
  by apply (inj pretty).
Qed.

Lemma job_title_inj title_prefix today n i j :
  n ≠ 1 →
  job_title title_prefix today n i = job_title title_prefix today n j → i = j.
Proof.
  intros Hn. unfold job_title. rewrite !decide_False by done.
  intros Heq. apply (inj (String.app title_prefix)) in Heq.
  apply (inj (String.app " - ")) in Heq.
  apply (inj (String.app today)) in Heq.
  apply (inj (String.app " Part ")) in Heq.
  by apply (inj pretty).
Qed.

Lemma job_url_inj base_url prefix f g :
  job_url base_url prefix f = job_url base_url prefix g → f = g.
Proof.
  unfold job_url. intros Heq. apply (inj (String.app base_url)) in Heq.
  apply (inj (String.app "/")) in Heq. apply (inj (String.app prefix)) in Heq.
  by apply (inj (String.app "/")) in Heq.
Qed.

Lemma NoDup_fmap_on {A B} (f : A → B) (l : list A) :
  (∀ x y, x ∈ l → y ∈ l → f x = f y → x = y) → NoDup l → NoDup (f <$> l).
Proof.
  induction l as [|x l IH]; intros Hinj Hl; [by constructor|].
  apply list.NoDup_cons in Hl as [Hx Hl]. simpl. apply list.NoDup_cons. split.
  - intros (y & Hxy & Hy)%list_elem_of_fmap.
    apply Hx. rewrite (Hinj x y); [done| |by right|done]. by left.
  - apply IH; [|done]. intros a b Ha Hb. apply Hinj; by right.
Qed.

(** X11. Within a run no two jobs share a file name, a title or a
    source URL, whatever the limit is. *)
Theorem jobs_are_distinct title_prefix today base_url prefix n :
  NoDup (job_filenames today n)
  ∧ NoDup (job_titles title_prefix today n)
  ∧ NoDup (job_url base_url prefix <$> job_filenames today n).
Proof.
  assert (Hrange : NoDup (py_range 1 (n + 1))) by apply NoDup_seqZ.
  destruct (decide (n = 1)) as [->|Hn].
  { repeat split; vm_compute; apply NoDup_singleton. }
  assert (Hnames : NoDup (job_filenames today n)).
  { apply NoDup_fmap_on; [|done]. intros i j _ _. by apply job_filename_inj. }
  split; [done|]. split.
  - apply NoDup_fmap_on; [|done]. intros i j _ _. by apply job_title_inj.
  - apply NoDup_fmap_on; [|done]. intros f g _ _. apply job_url_inj.
Qed.

(** ** Trimming *)

Lemma lstrip_fixed p s :
  (∀ c, Str.head s = Some c → p c = false) → Str.lstrip p s = s.
Proof.
  destruct s as [|a s]; simpl; [done|]. intros Hhead.
  by rewrite (Hhead a).
Qed.

Lemma rstrip_fixed p s :
  (∀ c, Str.last s = Some c → p c = false) → Str.rstrip p s = s.
Proof.
  induction s as [|a s IH]; simpl; [done|]. intros Hlast.
  destruct s as [|b s].
  - simpl. by rewrite (Hlast a).
  - rewrite IH; [done|]. intros c Hc. by apply Hlast.
Qed.

(** X18. A base URL that does not end with a slash and a prefix that
    neither starts nor ends with one are used as they are. *)
Theorem trimmed_values_used_as_is environ raw_base raw_prefix w :
  environ !! "R2_BASE_URL" = Some raw_base →
  environ !! "R2_PREFIX_PATH" = Some raw_prefix →
  Str.last raw_base ≠ Some "/"%char →
  Str.head raw_prefix ≠ Some "/"%char →
  Str.last raw_prefix ≠ Some "/"%char →
  ∃ cfg,
    load_settings environ w = (Ret cfg, w)
    ∧ base_url cfg = raw_base
    ∧ prefix cfg = raw_prefix.
Proof.
  intros Hbase Hprefix Hend Hpre_head Hpre_last.
  assert (Hslash : ∀ c, c ≠ "/"%char → slash c = false).
  { intros c Hc. unfold slash. simpl.
    by destruct (decide ("/"%char = c)) as [<-|]. }
  eexists. split.
  { unfold load_settings, mbind, M_bind.
    rewrite (environ_getitem_run _ _ raw_base),
      (environ_getitem_run _ _ raw_prefix) by done.
    reflexivity. }
  simpl. split.
  - apply rstrip_fixed. intros c Hc. apply Hslash. congruence.
  - unfold Str.strip. rewrite lstrip_fixed.
    + apply rstrip_fixed. intros c Hc. apply Hslash. congruence.
    + intros c Hc. apply Hslash. congruence.
Qed.

(** ** A whole run *)

Lemma printed_app t1 t2 : printed (t1 ++ t2) = printed t1 ++ printed t2.
Proof. apply omap_app. Qed.

Lemma omap_length_le {A B} (f : A → option B) (l : list A) :
  (length (omap f l) ≤ length l)%nat.
Proof.
  induction l as [|x l IH]; [done|].
  change (omap f (x :: l))
    with (match f x with Some y => y :: omap f l | None => omap f l end).
  destruct (f x); simpl; lia.
Qed.

Section RunEffects.

Context (X : externals) (cfg : settings) (youtube : credentials)
  (today : string).

(** What one iteration requests, submits, reports and keeps. *)
Lemma loop_body_effects index flag w :
  ∃ files added,
    loop_body X cfg youtube today index flag w
    = (Ret (flag || job_uploaded X cfg youtube today index),
       World files (trace w ++ added))
    ∧ fetched added =
        [job_url (base_url cfg) (prefix cfg)
           (job_filename today (max_daily_uploads cfg) index)]
    ∧ uploads added = option_list (submission_of_job X cfg today index)
    ∧ (∀ e, outcome_of_job X cfg youtube today index = JobFailed e →
         error_line (job_filename today (max_daily_uploads cfg) index) e
         ∈ printed added)
    ∧ (∀ path, is_Some (fs w !! path) → is_Some (files !! path)).
Proof.
  rewrite loop_body_run.
  unfold job_uploaded, outcome_of_job, submission_of_job.
  destruct (requests_get X _) as [resp|e].
  2: { eexists _, _. rewrite orb_false_r, <- app_assoc.
       split; [done|]. split; [done|]. split; [done|]. split; [|done].
       intros e' [= <-]. simpl. set_solver. }
  destruct (decide (status_code resp = 404)).
  { eexists _, _. rewrite orb_false_r, <- app_assoc.
    split; [done|]. split; [done|]. split; [done|]. by split. }
  destruct (decide (error_status (status_code resp))).
  { eexists _, _. rewrite orb_false_r, <- app_assoc.
    split; [done|]. split; [done|]. split; [done|]. split; [|done].
    intros e' [= <-]. simpl. set_solver. }
  simpl. destruct (videos_insert X youtube _ _ _) as [answer|e].
  - eexists _, _. rewrite orb_true_r, <- !app_assoc.
    split; [done|]. split; [done|]. split; [done|]. split; [done|].
    intros path Hpath. rewrite lookup_insert_is_Some.
      destruct (decide (temp_name X (fs w) = path)); [by left|by right].
  - eexists _, _. rewrite orb_false_r, <- !app_assoc.
    split; [done|]. split; [done|]. split; [done|]. split.
    + intros e' [= <-]. simpl. set_solver.
    + intros path Hpath. rewrite lookup_insert_is_Some.
      destruct (decide (temp_name X (fs w) = path)); [by left|by right].
Qed.

Lemma for_each_effects indices flag w :
  ∃ files added,
    for_each (loop_body X cfg youtube today) indices flag w
    = (Ret (flag || existsb (job_uploaded X cfg youtube today) indices),
       World files (trace w ++ added))
    ∧ fetched added =
        (λ index, job_url (base_url cfg) (prefix cfg)
                    (job_filename today (max_daily_uploads cfg) index))
        <$> indices
    ∧ uploads added = omap (submission_of_job X cfg today) indices
    ∧ (∀ index e, index ∈ indices →
         outcome_of_job X cfg youtube today index = JobFailed e →
         error_line (job_filename today (max_daily_uploads cfg) index) e
         ∈ printed added)
    ∧ (∀ path, is_Some (fs w !! path) → is_Some (files !! path)).
Proof.
  revert flag w. induction indices as [|index indices IH]; intros flag w.
  - exists (fs w), []. simpl. rewrite orb_false_r, app_nil_r, world_eta.
    split; [done|]. split; [done|]. split; [done|]. split; [|done].
    by intros index e ?%elem_of_nil.
  - destruct (loop_body_effects index flag w)
      as (files1 & added1 & Hrun1 & Hfetch1 & Hup1 & Herr1 & Hkeep1).
    destruct (IH (flag || job_uploaded X cfg youtube today index)
                 (World files1 (trace w ++ added1)))
      as (files2 & added2 & Hrun2 & Hfetch2 & Hup2 & Herr2 & Hkeep2).
    exists files2, (added1 ++ added2). simpl.
    unfold mbind, M_bind. rewrite Hrun1, Hrun2. simpl.
    rewrite orb_assoc, app_assoc, fetched_app, uploads_app, printed_app.
    rewrite Hfetch1, Hfetch2, Hup1, Hup2.
    split; [done|]. split; [done|]. split; [|split].
    + by destruct (submission_of_job X cfg today index).
    + intros i e Hi Hfail. apply elem_of_app.
      apply elem_of_cons in Hi as [->|Hi]; [left|right]; eauto.
    + intros path Hpath. apply Hkeep2. simpl. by apply Hkeep1.
Qed.

Lemma run_jobs_effects w :
  ∃ files added,
    run_jobs X cfg youtube today w = (Ret (), World files (trace w ++ added))
    ∧ fetched added =
        job_url (base_url cfg) (prefix cfg)
        <$> job_filenames today (max_daily_uploads cfg)
    ∧ uploads added =
        omap (submission_of_job X cfg today)
          (py_range 1 (max_daily_uploads cfg + 1))
    ∧ (∀ index e, 1 ≤ index ≤ max_daily_uploads cfg →
         outcome_of_job X cfg youtube today index = JobFailed e →
         error_line (job_filename today (max_daily_uploads cfg) index) e
         ∈ printed added)
    ∧ (∀ path, is_Some (fs w !! path) → is_Some (files !! path)).
Proof.
  destruct (for_each_effects (py_range 1 (max_daily_uploads cfg + 1)) false w)
    as (files & added & Hrun & Hfetch & Hup & Herr & Hkeep).
  assert (Hin : ∀ index, 1 ≤ index ≤ max_daily_uploads cfg →
                  index ∈ py_range 1 (max_daily_uploads cfg + 1)).
  { intros index Hindex. unfold py_range. apply elem_of_seqZ. lia. }
  unfold job_filenames. rewrite <- list_fmap_compose.
  unfold run_jobs, mbind, M_bind. rewrite Hrun. simpl.
  destruct (existsb _ _); simpl.
  - exists files, added. repeat split; eauto.
  - exists files, (added ++ [Print nothing_uploaded]). run_monad.
    rewrite app_assoc, fetched_app, uploads_app, printed_app, Hfetch, Hup.
    simpl. rewrite !app_nil_r.
    split; [done|]. split; [done|]. split; [done|]. split; [|done].
    intros index e Hindex Hfail. apply elem_of_app. left. eauto.
Qed.


(** X13. A run with limit [n] sends [max n 0] requests and submits at
    most as many uploads. *)
Theorem run_request_and_upload_counts w :
  ∃ files added,
    run_jobs X cfg youtube today w = (Ret (), World files (trace w ++ added))
    ∧ length (fetched added) = Z.to_nat (max_daily_uploads cfg)
    ∧ (length (uploads added) ≤ length (fetched added))%nat.
Proof.
  destruct (run_jobs_effects w) as (files & added & Hrun & Hfetch & Hup & _).
  exists files, added. split; [done|]. rewrite Hfetch, Hup.
  unfold job_filenames. rewrite !length_fmap. unfold py_range.
  rewrite length_seqZ. split; [f_equal; lia|].
  etrans; [apply omap_length_le|]. by rewrite length_seqZ.
Qed.


(** X15. A run removes no file: every file that exists before it
    exists after it. *)
Theorem run_keeps_files w path :
  is_Some (fs w !! path) →
  ∃ files added,
    run_jobs X cfg youtube today w = (Ret (), World files (trace w ++ added))
    ∧ is_Some (files !! path).
Proof.
  intros Hpath.
  destruct (run_jobs_effects w) as (files & added & Hrun & _ & _ & _ & Hkeep).
  exists files, added. split; [done|]. by apply Hkeep.
Qed.


End RunEffects.

(** ** Default settings *)

(** X17. With the two R2 variables set and the seven optional
    variables absent, the settings are the two trimmed values, title
    prefix "Daily Video", empty description, category "22", privacy
    "public", not made for kids, altered content, and a limit of 1. *)
Theorem settings_defaults environ raw_base raw_prefix w :
  environ !! "R2_BASE_URL" = Some raw_base →
  environ !! "R2_PREFIX_PATH" = Some raw_prefix →
  environ !! "YT_TITLE_PREFIX" = None →
  environ !! "YT_DESCRIPTION" = None →
  environ !! "YT_CATEGORY_ID" = None →
  environ !! "YT_PRIVACY_STATUS" = None →
  environ !! "YT_MADE_FOR_KIDS" = None →
  environ !! "YT_ALTERED_CONTENT" = None →
  environ !! "YT_MAX_DAILY_UPLOADS" = None →
  load_settings environ w
  = (Ret (Settings (Str.rstrip slash raw_base) (Str.strip slash raw_prefix)
            "Daily Video" "" "22" "public" false true 1),
     w).
Proof.
  intros Hbase Hprefix Htitle Hdesc Hcat Hprivacy Hkids Haltered Hmax.
  unfold load_settings, mbind, M_bind.
  rewrite (environ_getitem_run _ _ raw_base),
    (environ_getitem_run _ _ raw_prefix) by done.
  unfold env_bool, env_int, getenv.
  by rewrite Htitle, Hdesc, Hcat, Hprivacy, Hkids, Haltered, Hmax,
    to_int_pretty.
Qed.

(** ** The further statements at concrete inputs *)

Lemma env_int_absent_witness :
  env_int Sample.environ "YT_MAX_DAILY_UPLOADS" (-3) = -3.
Proof. apply env_int_absent. vm_compute. reflexivity. Defined.



Lemma upload_missing_file_witness :
  ∃ e w',
    upload_one_video Sample.X Sample.client "/tmp/gone.mp4"
      "Daily Video - 2024-03-01" "" "22" "public" false true Sample.start
    = (Raise e, w')
    ∧ exn_kind e = FileNotFoundError
    ∧ uploads (trace w') = []
    ∧ printed (trace w') = ["Uploading /tmp/gone.mp4 to YouTube..."].
Proof.
  apply (upload_missing_file Sample.X Sample.client "/tmp/gone.mp4"
           "Daily Video - 2024-03-01" "" "22" "public" false true Sample.start).
  vm_compute. reflexivity.
Defined.

Lemma upload_failure_propagates_witness :
  ∃ w',
    upload_one_video Sample.closed Sample.client "/tmp/clip.mp4"
      "Daily Video - 2024-03-01" "" "22" "public" false true Sample.saved
    = (Raise (Exn ApiError "quotaExceeded"), w')
    ∧ printed (trace w') = ["Uploading /tmp/clip.mp4 to YouTube..."]
    ∧ uploads (trace w')
      = [(upload_body "Daily Video - 2024-03-01" "" "22" "public" false true,
          [Byte.x00; Byte.x01; Byte.x02])].
Proof.
  apply (upload_failure_propagates Sample.closed Sample.client "/tmp/clip.mp4"
           "Daily Video - 2024-03-01" "" "22" "public" false true Sample.saved).
  - vm_compute. reflexivity.
  - vm_compute. reflexivity.
Defined.

Lemma upload_body_fields_witness :
  ∃ r w' body,
    upload_one_video Sample.X Sample.client "/tmp/clip.mp4"
      "Daily Video - 2024-03-01" "" "22" "unlisted" true false Sample.saved
    = (r, w')
    ∧ uploads (trace w') = [(body, [Byte.x00; Byte.x01; Byte.x02])]
    ∧ body_field body "snippet" "title"
      = Some (PStr "Daily Video - 2024-03-01")
    ∧ body_field body "snippet" "categoryId" = Some (PStr "22")
    ∧ body_field body "status" "privacyStatus" = Some (PStr "unlisted")
    ∧ body_field body "status" "selfDeclaredMadeForKids" = Some (PBool true)
    ∧ body_field body "contentDetails" "hasCustomThumbnail" = None
    ∧ dom body = {[ "snippet"; "status" ]}.
Proof.
  apply (upload_body_fields Sample.X Sample.client "/tmp/clip.mp4"
           "Daily Video - 2024-03-01" "" "22" "unlisted" true false
           Sample.saved).
  vm_compute. reflexivity.
Defined.


Lemma run_keeps_files_witness :
  ∃ files added,
    run_jobs Sample.X Sample.one_a_day Sample.client "2024-03-01" Sample.saved
    = (Ret (), World files added)
    ∧ is_Some (files !! "/tmp/clip.mp4").
Proof.
  apply (run_keeps_files Sample.X Sample.one_a_day Sample.client "2024-03-01"
           Sample.saved "/tmp/clip.mp4").
  vm_compute. eauto.
Defined.


Lemma settings_defaults_witness :
  load_settings Sample.environ Sample.start
  = (Ret Sample.one_a_day, Sample.start).
Proof.
  apply (settings_defaults Sample.environ "https://cdn.example.com" "videos"
           Sample.start); vm_compute; reflexivity.
Defined.

Lemma trimmed_values_used_as_is_witness :
  ∃ cfg,
    load_settings Sample.environ Sample.start = (Ret cfg, Sample.start)
    ∧ base_url cfg = "https://cdn.example.com"
    ∧ prefix cfg = "videos".
Proof.
  apply (trimmed_values_used_as_is Sample.environ "https://cdn.example.com"
           "videos" Sample.start);
    vm_compute; first [reflexivity | discriminate].
Defined.
